(** * tg_searcher: ingestion pipeline, archival sink and search pagination

    A shallow embedding of the parts of [tg_searcher] that its specification
    talks about, followed by the properties proved about them.

    - [Py]        Python values, truthiness, exceptions and a small
                  state-and-exception monad for the stateful methods.
    - [Aws]       [aws.py]: the structured store behind [put_item_to_dynamo].
    - [Backend]   [backend_bot.py]: monitoring gate, text extraction, backfill,
                  live handlers, [clear] and [cloud_upload_message].
    - [Frontend]  [frontend_bot.py]: [FakeRedis] and [_render_respond_buttons].

    Integers are [Z] (Python integers are unbounded), sets are [gset], dicts
    are [gmap], strings are byte strings holding the UTF-8 text of the source. *)

From stdpp Require Import base gmap sets list strings pretty.
From Stdlib Require Import ZArith Lia.
From Stdlib Require QArith.QArith_base QArith.Qround.

Open Scope Z_scope.

(** ** Python values, exceptions, and the monad of a method body *)

Module Py.

(** The dynamically typed values that reach the modelled code. *)
Inductive pyval :=
| PyNone
| PyBool (b : bool)
| PyInt (z : Z)
| PyStr (s : string).

#[global] Instance pyval_eq_dec : EqDecision pyval.
Proof. solve_decision. Defined.

(** [bool(v)]: what [if v:] tests. *)
Definition truthy (v : pyval) : bool :=
  match v with
  | PyNone => false
  | PyBool b => b
  | PyInt z => negb (z =? 0)
  | PyStr s => negb (bool_decide (s = ""))
  end.

(** [a and b]: [a] when [a] is falsy, [b] otherwise. *)
Definition py_and (a b : pyval) : pyval := if truthy a then b else a.

(** [a or b]. *)
Definition py_or (a b : pyval) : pyval := if truthy a then a else b.

(** [str(v)], which is what an f-string placeholder [{v}] prints. *)
Definition py_str (v : pyval) : string :=
  match v with
  | PyNone => "None"
  | PyBool true => "True"
  | PyBool false => "False"
  | PyInt z => pretty z
  | PyStr s => s
  end.

(** Exceptions (all of them subclasses of [Exception]). [ExternalError] stands
    for whatever an external collaborator raises: the chat platform, the object
    store, the index engine. *)
Inductive exn :=
| KeyError (k : Z)
| ValueError (msg : string)
| ZeroDivisionError
| AttributeError (attribute : string)
| ConditionalCheckFailedException
| ValidationException
| ExternalError (what : string)
| RuntimeError (msg : string) (cause : exn).

#[global] Instance exn_eq_dec : EqDecision exn.
Proof. solve_decision. Defined.

(** How a call ends. *)
Inductive outcome (A : Type) :=
| Returned (a : A)
| Raised (e : exn).
Arguments Returned {A} a.
Arguments Raised {A} e.

Definition is_raised {A} (o : outcome A) : bool :=
  match o with Raised _ => true | Returned _ => false end.

(** A method body over the object state [S]: it ends by returning or raising,
    and the mutations made before a [raise] stay. *)
Definition M (S A : Type) : Type := S → outcome A * S.

Definition ret {S A} (a : A) : M S A := λ s, (Returned a, s).

Definition bind {S A B} (m : M S A) (k : A → M S B) : M S B :=
  λ s, match m s with
       | (Returned a, s') => k a s'
       | (Raised e, s') => (Raised e, s')
       end.

Definition raise {S A} (e : exn) : M S A := λ s, (Raised e, s).

(** Lifts the result of a collaborator that does not touch [S]. *)
Definition lift {S A} (o : outcome A) : M S A := λ s, (o, s).

Definition gets {S A} (f : S → A) : M S A := λ s, (Returned (f s), s).

Definition modify {S} (f : S → S) : M S unit := λ s, (Returned tt, f s).

(** [try: body / except Exception as e: handler(e)]. *)
Definition try_except {S A} (body : M S A) (handler : exn → M S A) : M S A :=
  λ s, match body s with
       | (Returned a, s') => (Returned a, s')
       | (Raised e, s') => handler e s'
       end.

(** [for x in l: body(x)]. *)
Fixpoint for_each {S A} (l : list A) (body : A → M S unit) : M S unit :=
  match l with
  | [] => ret tt
  | x :: l' => bind (body x) (λ _, for_each l' body)
  end.

Definition when {S} (c : bool) (m : M S unit) : M S unit :=
  if c then m else ret tt.

(** Runs a body written over a part [T] of the state [S]. *)
Definition zoom {S T A} (part : S → T) (update : T → S → S) (m : M T A) : M S A :=
  λ s, let '(o, t') := m (part s) in (o, update t' s).

End Py.

Import Py.

(** [x ← m; k] and [m;; k] sequence method bodies. *)
#[global] Instance M_ret {S} : MRet (M S) := λ A, @Py.ret S A.
#[global] Instance M_bind {S} : MBind (M S) := λ A B k m, Py.bind m k.

(** ** aws.py *)

Module Aws.

(** An attribute value of the structured store. *)
#[warnings="-register-all"]
Inductive attr :=
| AttrNull
| AttrN (n : Z)
| AttrS (s : string)
| AttrBool (b : bool)
| AttrM (fields : list (string * attr)).

(** An item is a dict from attribute names to values. *)
Abbreviation item := (gmap string attr).

Inductive KeyType := HASH | RANGE.

Definition DEFAULT_TABLE_NAME : string := "tg_message_db".

Definition DEFAULT_KEY_SCHEMA : list (string * KeyType) :=
  [("chatId", HASH); ("timestamp", RANGE)].

Inductive AttributeType := N_type | S_type.

Definition DEFAULT_ATTRIBUTE_DEFINITIONS : list (string * AttributeType) :=
  [("chatId", N_type); ("timestamp", N_type)].

(** The numeric value an item gives to a key attribute declared of type [N]. *)
Definition key_attribute (it : item) (name : string) : option Z :=
  match it !! name with
  | Some (AttrN n) => Some n
  | _ => None
  end.

(** The primary key of an item under a schema of key attributes, in schema
    order; [None] when a key attribute is missing or not a number. *)
Fixpoint key_under (schema : list (string * KeyType)) (it : item) : option (list Z) :=
  match schema with
  | [] => Some []
  | (name, _) :: rest =>
      match key_attribute it name, key_under rest it with
      | Some n, Some ks => Some (n :: ks)
      | _, _ => None
      end
  end.

(** The primary key under the table's declared schema: [[chatId; timestamp]]. *)
Definition primary_key (it : item) : option (list Z) :=
  key_under DEFAULT_KEY_SCHEMA it.

(** A table stores at most one item per primary key. *)
Abbreviation table := (gmap (list Z) item).

(** Condition expressions, as far as [put_item_to_dynamo] writes them. *)
Inductive condition :=
| attribute_not_exists (path : string)
| AND (a b : condition).

(** [ExpressionAttributeNames]: a [#name] placeholder stands for the attribute
    it is mapped to, any other path stands for itself. *)
Definition resolve_name (names : gmap string string) (path : string) : string :=
  default path (names !! path).

(** A condition is evaluated on the item stored under the primary key of the
    item being written; when there is none, on an item without attributes. *)
Fixpoint eval_condition (names : gmap string string) (c : condition)
    (existing : item) : bool :=
  match c with
  | attribute_not_exists path =>
      bool_decide (existing !! resolve_name names path = None)
  | AND a b => eval_condition names a existing && eval_condition names b existing
  end.

(** The store's [table.put_item(Item, ConditionExpression,
    ExpressionAttributeNames)]: an item without a well-typed primary key is
    refused, a failed condition leaves the table as it is, and otherwise the
    item replaces whatever was stored under its key. *)
Definition put_item (Item : item) (ConditionExpression : condition)
    (ExpressionAttributeNames : gmap string string) : M table unit :=
  λ tbl,
    match primary_key Item with
    | None => (Raised ValidationException, tbl)
    | Some k =>
        if eval_condition ExpressionAttributeNames ConditionExpression
             (default ∅ (tbl !! k))
        then (Returned tt, <[k := Item]> tbl)
        else (Raised ConditionalCheckFailedException, tbl)
    end.

(** [AWSClient.put_item_to_dynamo(item=...)] on the configured table. *)
Definition put_item_to_dynamo (it : option item) : M table unit :=
  match it with
  | None => raise (ValueError "Item cannot be None")
  | Some Item =>
      try_except
        (put_item Item
           (AND (attribute_not_exists "chat_id") (attribute_not_exists "#ts"))
           {[ "#ts" := "timestamp" ]})
        (λ e, raise (RuntimeError "Failed to put item to DynamoDB" e))
  end.

(** Every stored item carries the key it is stored under. *)
Definition table_wf (tbl : table) : Prop :=
  ∀ k it, tbl !! k = Some it → primary_key it = Some k.

(** The rows of a table whose own key attributes spell [k]. *)
Definition rows_with_key (k : list Z) (tbl : table) : table :=
  filter (λ kv, primary_key kv.2 = Some k) tbl.

(** The error a refused conditional write ends in. *)
Definition duplicate_record_error : exn :=
  RuntimeError "Failed to put item to DynamoDB" ConditionalCheckFailedException.

Record AWSConfig := {
  region_name : pyval;
  s3_bucket_name : pyval;
  dynamo_table_name : string;
}.

(** The client, together with the state of the two services it wraps: the
    objects of the bucket by key, and the rows of the table. *)
Record AWSClient := {
  _cfg : AWSConfig;
  bucket : gmap string string;
  rows : table;
}.

Definition set_bucket (b : gmap string string) (c : AWSClient) : AWSClient :=
  {| _cfg := _cfg c; bucket := b; rows := rows c |}.

Definition set_rows (t : table) (c : AWSClient) : AWSClient :=
  {| _cfg := _cfg c; bucket := bucket c; rows := t |}.

(** [AWSClient.upload_to_s3(file_obj=..., s3_prefix=..., file_name=...)].
    [transfer key] is how the object store answers the transfer of the object
    to [key]. A [BytesIO] is truthy, so the [file_obj] branch is the one taken. *)
Definition upload_to_s3 (transfer : string → outcome unit) (file_obj : string)
    (s3_prefix file_name : string) : M AWSClient string :=
  let key := s3_prefix +:+ "/" +:+ file_name in
  try_except
    (lift (transfer key);;
     modify (λ c, set_bucket (<[key := file_obj]> (bucket c)) c);;
     c ← gets id;
     mret (py_str (s3_bucket_name (_cfg c)) +:+ "/" +:+ key))
    (λ e, raise (RuntimeError "Failed to upload file to S3" e)).

(** [put_item_to_dynamo] as a method of the client. *)
Definition client_put_item (it : option item) : M AWSClient unit :=
  zoom rows set_rows (put_item_to_dynamo it).

(** A run of [put_item_to_dynamo] calls, oldest first, whose caller goes on
    after a refused write (as [cloud_upload_message] does). *)
Definition put_all (its : list item) (tbl : table) : table :=
  foldl (λ t it, (put_item_to_dynamo (Some it) t).2) tbl its.

(** The first item of a run that has the primary key [k]. *)
Definition first_with_key (k : list Z) (its : list item) : option item :=
  head (filter (λ it, primary_key it = Some k) its).

End Aws.

(** ** The chat platform's objects, by the attributes the backend reads *)

Module User.

(** [telethon.tl.types.User] *)
Record t := mk {
  id : Z;
  username : option string;
  first_name : option string;
  last_name : option string;
  bot : bool;
}.

End User.

(** What [message.sender] and [message.get_sender()] hold: a [User], or a
    channel or chat, which has an id and a username but no first name. *)
Inductive entity :=
| IsUser (u : User.t)
| NotUser (id : Z) (username : option string).

Inductive peer :=
| PeerChannel (channel_id : Z)
| PeerUser (user_id : Z)
| PeerChat (chat_id : Z).

Inductive DocumentAttribute :=
| DocumentAttributeAudio
| DocumentAttributeVideo
| DocumentAttributeFilename
| DocumentAttributeSticker.

Inductive MessageMedia :=
| MessageMediaPhoto
| MessageMediaDocument (attributes : option (list DocumentAttribute))
| MessageMediaGeo.

Module File.

(** [message.file] *)
Record t := mk { name : pyval; ext : pyval }.

End File.

Module TgMessage.

(** [telethon.tl.patched.Message]; [raw_text] is [None] when the object has no
    text attribute, [get_sender] is what [await message.get_sender()] gives,
    [reply_to] the [reply_to_msg_id] of the reply header, [fwd_from] the
    [from_id] of the forward header. *)
Record t := mk {
  id : Z;
  chat_id : Z;
  raw_text : option string;
  text : option string;
  date : Z;
  sender : option entity;
  get_sender : option entity;
  reply_to : option Z;
  fwd_from : option (option peer);
  media : option MessageMedia;
  file : option File.t;
}.

End TgMessage.

Module NewMessage.

(** [events.NewMessage.Event] (and [events.MessageEdited.Event], its
    subclass): the event forwards [id], [chat_id], [raw_text] and [date] to the
    message it carries. *)
Record Event := mk { message : TgMessage.t }.

Definition id (e : Event) : Z := TgMessage.id (message e).
Definition chat_id (e : Event) : Z := TgMessage.chat_id (message e).
Definition raw_text (e : Event) : option string := TgMessage.raw_text (message e).
Definition date (e : Event) : Z := TgMessage.date (message e).

End NewMessage.

Module MessageDeleted.

(** [events.MessageDeleted.Event]: the platform names the chat only for
    channels and supergroups. *)
Record Event := mk { chat_id : option Z; deleted_ids : list Z }.

End MessageDeleted.

(** What [cloud_upload_message] is called with: a live event or a message of
    the history. *)
Inductive uploadable :=
| OfEvent (e : NewMessage.Event)
| OfMessage (m : TgMessage.t).

Module IndexMsg.

(** [indexer.IndexMsg]. The constructor does not check the type of [content]:
    it holds whatever value the caller passes. *)
Record t := mk {
  content : pyval;
  url : string;
  chat_id : Z;
  post_time : Z;
  sender : string;
}.

End IndexMsg.

(** ** model.py *)

Module TelegramUser.

Record t := mk {
  user_id : Z;
  username : option string;
  first_name : option string;
  last_name : option string;
  is_bot : bool;
}.

End TelegramUser.

Inductive MediaType := PHOTO | VIDEO | AUDIO | DOCUMENT | UNKNOWN.

Definition MediaType_value (m : MediaType) : string :=
  match m with
  | PHOTO => "photo"
  | VIDEO => "video"
  | AUDIO => "audio"
  | DOCUMENT => "document"
  | UNKNOWN => "unknown"
  end.

Module TelegramMedia.

Record t := mk { media_type : MediaType; media_key : string }.

End TelegramMedia.

Module TelegramMessage.

Record t := mk {
  chat_id : Z;
  message_id : Z;
  timestamp : Z;
  user : TelegramUser.t;
  text : option string;
  media : option TelegramMedia.t;
  reply_to : option Z;
  is_forward : option bool;
  fwd_from : option Z;
}.

Definition opt_S (o : option string) : Aws.attr := from_option Aws.AttrS Aws.AttrNull o.
Definition opt_N (o : option Z) : Aws.attr := from_option Aws.AttrN Aws.AttrNull o.

Definition user_dict (u : TelegramUser.t) : Aws.attr :=
  Aws.AttrM
    [ ("userId", Aws.AttrN (TelegramUser.user_id u));
      ("username", opt_S (TelegramUser.username u));
      ("firstName", opt_S (TelegramUser.first_name u));
      ("lastName", opt_S (TelegramUser.last_name u));
      ("isBot", Aws.AttrBool (TelegramUser.is_bot u)) ].

Definition media_dict (m : TelegramMedia.t) : Aws.attr :=
  Aws.AttrM
    [ ("mediaType", Aws.AttrS (MediaType_value (TelegramMedia.media_type m)));
      ("mediaKey", Aws.AttrS (TelegramMedia.media_key m)) ].

(** [self.dict(by_alias=True)]: every field, under its alias. *)
Definition dict (self : t) : Aws.item :=
  list_to_map
    [ ("chatId", Aws.AttrN (chat_id self));
      ("messageId", Aws.AttrN (message_id self));
      ("timestamp", Aws.AttrN (timestamp self));
      ("user", user_dict (user self));
      ("text", opt_S (text self));
      ("media", from_option media_dict Aws.AttrNull (media self));
      ("replyTo", opt_N (reply_to self));
      ("isForward", from_option Aws.AttrBool Aws.AttrNull (is_forward self));
      ("fwdFrom", opt_N (fwd_from self)) ].

End TelegramMessage.

(** ** What the sources import without defining *)

(** [common.py] is not among the sources, and [str.strip] works on Unicode
    text; the backend is modelled over any functions of these types. *)
Class Common := {
  get_share_id : Z → Z;
  escape_content : string → string;
  format_entity_name : User.t → string;
  strip : string → string;
}.

(** What [session.iter_messages] yields: the messages read before the platform
    fails, and the error it then raises, if it does. *)
Record history := {
  fetched : list TgMessage.t;
  failure : option exn;
}.

(** How the external services answer during a run. [check_message_exist] is
    called on the cloud client but [aws.py] does not define it. *)
Record Environment := {
  iter_messages : Z → Z → Z → history;
  check_message_exist : Aws.AWSClient → Z → Z → outcome bool;
  download_media : TgMessage.t → outcome string;
  transfer : string → outcome unit;
}.

(** ** backend_bot.py *)

Module Backend.

(** [BackendBotConfig]; its [excluded_chats] is the set the bot takes over as
    its own, and is kept there. *)
Record BackendBotConfig := {
  monitor_all : bool;
  cloudstorage : bool;
}.

(** The calls the backend issues to the index gateway ([indexer.py] and the
    index engine are outside the sources). A call is recorded as it is issued;
    the calls, like the sender lookup of [_get_sender_name], are taken on their
    normal return. *)
Inductive ix_call :=
| add_document (msg : IndexMsg.t)
| writer
| writer_add_document (msg : IndexMsg.t)
| writer_delete_by_term (field term : string)
| writer_commit
| update (url : string) (content : pyval)
| delete (url : string)
| clear_index.

Inductive log_record :=
| info (msg : string)
| warning (msg : string)
| error (msg : string) (e : exn).

(** [BackendBot]. [_indexer] is the sequence of calls issued to the index
    gateway so far, [_logger] what [cloud_upload_message] has logged, and
    [uploads] records the calls of [cloud_upload_message] with their arguments
    (an observation of the model, not a field of the class). *)
Record t := mk {
  _cfg : BackendBotConfig;
  monitored_chats : gset Z;
  excluded_chats : gset Z;
  newest_msg : gmap Z IndexMsg.t;
  _cloud_client : option Aws.AWSClient;
  _indexer : list ix_call;
  _logger : list log_record;
  uploads : list (uploadable * bool);
}.

(** [BackendBot.__init__]: [indexed] is [list_indexed_chats()] of the index
    found at startup. *)
Definition __init__ (cfg : BackendBotConfig) (cfg_excluded_chats : gset Z)
    (cloud_client : Aws.AWSClient) (indexed : gset Z) : t :=
  {| _cfg := cfg;
     monitored_chats := indexed;
     excluded_chats := cfg_excluded_chats;
     newest_msg := ∅;
     _cloud_client := if cloudstorage cfg then Some cloud_client else None;
     _indexer := [];
     _logger := [];
     uploads := [] |}.

Definition set_monitored_chats (v : gset Z) (self : t) : t :=
  mk (_cfg self) v (excluded_chats self) (newest_msg self) (_cloud_client self)
     (_indexer self) (_logger self) (uploads self).

Definition set_newest_msg (v : gmap Z IndexMsg.t) (self : t) : t :=
  mk (_cfg self) (monitored_chats self) (excluded_chats self) v (_cloud_client self)
     (_indexer self) (_logger self) (uploads self).

Definition set_cloud_client (v : option Aws.AWSClient) (self : t) : t :=
  mk (_cfg self) (monitored_chats self) (excluded_chats self) (newest_msg self) v
     (_indexer self) (_logger self) (uploads self).

Definition set_indexer (v : list ix_call) (self : t) : t :=
  mk (_cfg self) (monitored_chats self) (excluded_chats self) (newest_msg self)
     (_cloud_client self) v (_logger self) (uploads self).

Definition set_logger (v : list log_record) (self : t) : t :=
  mk (_cfg self) (monitored_chats self) (excluded_chats self) (newest_msg self)
     (_cloud_client self) (_indexer self) v (uploads self).

Definition set_uploads (v : list (uploadable * bool)) (self : t) : t :=
  mk (_cfg self) (monitored_chats self) (excluded_chats self) (newest_msg self)
     (_cloud_client self) (_indexer self) (_logger self) v.

(** One call to the index gateway. *)
Definition issue (c : ix_call) : M t unit :=
  modify (λ self, set_indexer (_indexer self ++ [c]) self).

Definition log (r : log_record) : M t unit :=
  modify (λ self, set_logger (_logger self ++ [r]) self).

(** A method of [self._cloud_client]. *)
Definition with_client {A} (m : M Aws.AWSClient A) : M t A :=
  λ self,
    match _cloud_client self with
    | Some c => let '(o, c') := m c in (o, set_cloud_client (Some c') self)
    | None => (Raised (AttributeError "NoneType"), self)
    end.

(** [f'https://t.me/c/{share_id}/{msg_id}'] *)
Definition message_url (share_id msg_id : Z) : string :=
  "https://t.me/c/" +:+ pretty share_id +:+ "/" +:+ pretty msg_id.

Section WithCommon.
Context `{Common}.

(** [BackendBot._should_monitor(chat_id)] *)
Definition _should_monitor (self : t) (chat_id : Z) : bool :=
  let share_id := get_share_id chat_id in
  if monitor_all (_cfg self)
  then negb (bool_decide (share_id ∈ excluded_chats self))
  else bool_decide (share_id ∈ monitored_chats self).

(** [BackendBot._extract_text(event)], from [event.raw_text]. *)
Definition _extract_text (raw_text : option string) : string :=
  match raw_text with
  | Some r =>
      if truthy (PyStr r) && (0 <=? Z.of_nat (String.length (strip r)))
      then escape_content (strip r)
      else ""
  | None => ""
  end.

(** [BackendBot._get_sender_name(message)] *)
Definition _get_sender_name (message : TgMessage.t) : string :=
  match TgMessage.get_sender message with
  | Some (IsUser u) => format_entity_name u
  | _ => ""
  end.

(** The sender's fields read by [cloud_upload_message]: [sender.first_name]
    raises when the sender is not a [User]. *)
Definition sender_fields (sender : option entity) : outcome TelegramUser.t :=
  match sender with
  | None => Returned (TelegramUser.mk 0 (Some "") (Some "") (Some "") false)
  | Some (IsUser u) =>
      Returned (TelegramUser.mk (User.id u) (User.username u) (User.first_name u)
                  (User.last_name u) (User.bot u))
  | Some (NotUser _ _) => Raised (AttributeError "first_name")
  end.

(** [from_id.channel_id] for a [PeerChannel], [from_id.user_id] otherwise. *)
Definition forward_source (from_id : option peer) : outcome Z :=
  match from_id with
  | Some (PeerChannel channel_id) => Returned channel_id
  | Some (PeerUser user_id) => Returned user_id
  | _ => Raised (AttributeError "user_id")
  end.

Definition is_audio (a : DocumentAttribute) : bool :=
  match a with DocumentAttributeAudio => true | _ => false end.

Definition is_video (a : DocumentAttribute) : bool :=
  match a with DocumentAttributeVideo => true | _ => false end.

(** The media kind, and the file name when the kind gives one. *)
Definition classify_media (message : TgMessage.t) (m : MessageMedia)
    : outcome (MediaType * pyval) :=
  match m with
  | MessageMediaPhoto => Returned (PHOTO, PyStr "")
  | MessageMediaDocument None => Raised (AttributeError "attributes")
  | MessageMediaDocument (Some attributes) =>
      if existsb is_audio attributes then Returned (AUDIO, PyStr "")
      else if existsb is_video attributes then Returned (VIDEO, PyStr "")
      else match TgMessage.file message with
           | Some f => Returned (DOCUMENT, File.name f)
           | None => Raised (AttributeError "name")
           end
  | MessageMediaGeo => Returned (UNKNOWN, PyStr "")
  end.

Section WithEnvironment.
Variable env : Environment.

(** The part of [cloud_upload_message] under [if message.media:]. *)
Definition upload_media (message : TgMessage.t) (chat_id message_id timestamp : Z)
    (m : MessageMedia) : M t TelegramMedia.t :=
  '(media_type, file_name) ← lift (classify_media message m);
  io_object ← lift (download_media env message);
  let extension :=
    match TgMessage.file message with Some f => File.ext f | None => PyStr "" end in
  let file_name :=
    if bool_decide (file_name = PyStr "")
    then PyStr (pretty chat_id +:+ "_" +:+ pretty message_id +:+ "_"
                +:+ pretty timestamp +:+ py_str extension)
    else file_name in
  media_key ← with_client
    (Aws.upload_to_s3 (transfer env) io_object (pretty chat_id) (py_str file_name));
  mret (TelegramMedia.mk media_type media_key).

(** The body of the [try] of [cloud_upload_message]. *)
Definition upload_body (event : uploadable) (skip_existing : bool) : M t unit :=
  let message := match event with OfEvent e => NewMessage.message e | OfMessage m => m end in
  let event_chat_id :=
    match event with OfEvent e => NewMessage.chat_id e | OfMessage m => TgMessage.chat_id m end in
  let chat_id := get_share_id event_chat_id in
  let message_id := TgMessage.id message in
  client ← with_client (gets id);
  exist ← lift (check_message_exist env client chat_id message_id);
  if exist && skip_existing
  then log (info ("Message " +:+ pretty chat_id +:+ "-" +:+ pretty message_id
                  +:+ " already exists in cloud storage, skipping upload"))
  else
    let text := TgMessage.text message in
    let timestamp := TgMessage.date message in
    telegram_user ← lift (sender_fields (TgMessage.sender message));
    let reply_to := TgMessage.reply_to message in
    '(is_forward, fwd_from) ←
      match TgMessage.fwd_from message with
      | Some from_id => fwd ← lift (forward_source from_id); mret (true, Some fwd)
      | None => mret (false, None)
      end;
    media ←
      match TgMessage.media message with
      | Some m => tm ← upload_media message chat_id message_id timestamp m; mret (Some tm)
      | None => mret None
      end;
    let telegram_message :=
      TelegramMessage.mk chat_id message_id timestamp telegram_user text media
        reply_to (Some is_forward) fwd_from in
    with_client (Aws.client_put_item (Some (TelegramMessage.dict telegram_message))).

Definition event_id (event : uploadable) : Z :=
  match event with OfEvent e => NewMessage.id e | OfMessage m => TgMessage.id m end.

(** [BackendBot.cloud_upload_message(event, skip_existing)] *)
Definition cloud_upload_message (event : uploadable) (skip_existing : bool) : M t unit :=
  modify (λ self, set_uploads (uploads self ++ [(event, skip_existing)]) self);;
  self ← gets id;
  match _cloud_client self with
  | None => log (warning "Cloud storage is not configured, skipping upload")
  | Some _ =>
      try_except (upload_body event skip_existing)
        (λ e, log (error ("Failed to upload message " +:+ pretty (event_id event)
                          +:+ " to cloud") e))
  end.

(** The loop of [download_history] over the messages read, carrying
    [msg_list]. *)
Fixpoint fetch_loop (chat_id share_id : Z) (cloud : bool)
    (call_back : option (Z → outcome unit)) (skip_indexing skip_existing : bool)
    (messages : list TgMessage.t) (msg_list : list IndexMsg.t)
    : M t (list IndexMsg.t) :=
  match messages with
  | [] => mret msg_list
  | tg_message :: rest =>
      when cloud (cloud_upload_message (OfMessage tg_message) skip_existing);;
      let msg_text :=
        py_and (PyStr (_extract_text (TgMessage.raw_text tg_message)))
               (PyBool (negb skip_indexing)) in
      let msg_list :=
        if truthy msg_text
        then
          let url := message_url share_id (TgMessage.id tg_message) in
          let sender := _get_sender_name tg_message in
          let msg := IndexMsg.mk msg_text url chat_id (TgMessage.date tg_message) sender in
          msg_list ++ [msg]
        else msg_list in
      match call_back with
      | Some f => lift (f (TgMessage.id tg_message))
      | None => mret tt
      end;;
      fetch_loop chat_id share_id cloud call_back skip_indexing skip_existing rest msg_list
  end.

(** [BackendBot.download_history(chat_id, min_id, max_id, cloud, call_back,
    skip_indexing, skip_existing)] *)
Definition download_history (chat_id min_id max_id : Z) (cloud : bool)
    (call_back : option (Z → outcome unit)) (skip_indexing skip_existing : bool)
    : M t unit :=
  let share_id := get_share_id chat_id in
  modify (λ self, set_monitored_chats ({[share_id]} ∪ monitored_chats self) self);;
  let h := iter_messages env chat_id min_id max_id in
  msg_list ← fetch_loop chat_id share_id cloud call_back skip_indexing skip_existing
                (fetched h) [];
  match failure h with Some e => raise e | None => mret tt end;;
  issue writer;;
  for_each msg_list (λ msg,
    issue (writer_add_document msg);;
    modify (λ self, set_newest_msg (<[share_id := msg]> (newest_msg self)) self));;
  issue writer_commit.

(** [client_message_handler(event)], the hook on [events.NewMessage]. *)
Definition client_message_handler (event : NewMessage.Event) : M t unit :=
  self ← gets id;
  if _should_monitor self (NewMessage.chat_id event)
  then
    let msg_text := _extract_text (NewMessage.raw_text event) in
    when (truthy (PyStr msg_text))
      (let share_id := get_share_id (NewMessage.chat_id event) in
       let sender := _get_sender_name (NewMessage.message event) in
       let url := message_url share_id (NewMessage.id event) in
       let msg := IndexMsg.mk (PyStr msg_text) url share_id (NewMessage.date event) sender in
       modify (λ self, set_newest_msg (<[share_id := msg]> (newest_msg self)) self);;
       issue (add_document msg));;
    when (cloudstorage (_cfg self)) (cloud_upload_message (OfEvent event) true)
  else mret tt.


(** [client_message_delete_handler(event)], the hook on
    [events.MessageDeleted]. *)
Definition client_message_delete_handler (event : MessageDeleted.Event) : M t unit :=
  match MessageDeleted.chat_id event with
  | None => mret tt
  | Some chat_id =>
      self ← gets id;
      if _should_monitor self chat_id
      then
        let share_id := get_share_id chat_id in
        for_each (MessageDeleted.deleted_ids event) (λ msg_id,
          issue (delete (message_url share_id msg_id)))
      else mret tt
  end.

End WithEnvironment.

(** [set.remove(x)]: raises [KeyError] when [x] is not a member. *)
Definition set_remove (x : Z) (s : gset Z) : outcome (gset Z) :=
  if bool_decide (x ∈ s) then Returned (s ∖ {[x]}) else Raised (KeyError x).

(** [BackendBot.clear(chat_ids)] *)
Definition clear (chat_ids : option (list Z)) : M t unit :=
  match chat_ids with
  | Some chat_ids =>
      for_each chat_ids (λ chat_id,
        issue writer;;
        issue (writer_delete_by_term "chat_id" (pretty chat_id));;
        issue writer_commit);;
      for_each chat_ids (λ chat_id,
        self ← gets id;
        s ← lift (set_remove chat_id (monitored_chats self));
        modify (set_monitored_chats s))
  | None =>
      issue clear_index;;
      modify (set_monitored_chats ∅)
  end.

(** *** Derived descriptions, used to state the properties *)

(** The record [client_message_handler] builds for an event. *)
Definition live_record (event : NewMessage.Event) : IndexMsg.t :=
  let share_id := get_share_id (NewMessage.chat_id event) in
  IndexMsg.mk (PyStr (_extract_text (NewMessage.raw_text event)))
    (message_url share_id (NewMessage.id event)) share_id
    (NewMessage.date event) (_get_sender_name (NewMessage.message event)).

(** The deletes a notification stands for. *)
Definition deletes_of (self : t) (event : MessageDeleted.Event) : list ix_call :=
  match MessageDeleted.chat_id event with
  | Some chat_id =>
      if _should_monitor self chat_id
      then map (λ msg_id, delete (message_url (get_share_id chat_id) msg_id))
             (MessageDeleted.deleted_ids event)
      else []
  | None => []
  end.

(** The records [download_history] buffers for one message. *)
Definition backfill_records (chat_id share_id : Z) (skip_indexing : bool)
    (tg_message : TgMessage.t) : list IndexMsg.t :=
  let msg_text :=
    py_and (PyStr (_extract_text (TgMessage.raw_text tg_message)))
           (PyBool (negb skip_indexing)) in
  if truthy msg_text
  then [IndexMsg.mk msg_text (message_url share_id (TgMessage.id tg_message)) chat_id
          (TgMessage.date tg_message) (_get_sender_name tg_message)]
  else [].

(** The specification's reading of a delete notification: every deleted id
    it carries gets an index delete. *)
Definition deletes_every_id (self : t) (event : MessageDeleted.Event) : Prop :=
  ∀ msg_id, msg_id ∈ MessageDeleted.deleted_ids event →
    ∃ url, delete url ∈ _indexer (client_message_delete_handler event self).2.

End WithCommon.

(** The part of the backend that decides what is indexed. *)
Definition index_view (s : t)
    : BackendBotConfig * gset Z * gset Z * gmap Z IndexMsg.t * list ix_call :=
  (_cfg s, monitored_chats s, excluded_chats s, newest_msg s, _indexer s).

(** Everything of the backend except the cloud client and the log. *)
Definition frame (s s' : t) : Prop :=
  _cfg s' = _cfg s
  ∧ monitored_chats s' = monitored_chats s
  ∧ excluded_chats s' = excluded_chats s
  ∧ newest_msg s' = newest_msg s
  ∧ _indexer s' = _indexer s
  ∧ uploads s' = uploads s.

(** A body that only touches the cloud client and the log. *)
Definition framed {A} (m : M t A) : Prop := ∀ s, frame s (m s).2.

(** The documents a sequence of gateway calls has committed through batch
    writers: the additions handed to a writer count once it commits. *)
Fixpoint batch_committed (pending : list IndexMsg.t) (calls : list ix_call)
    : list IndexMsg.t :=
  match calls with
  | [] => []
  | writer :: rest => batch_committed [] rest
  | writer_add_document msg :: rest => batch_committed (pending ++ [msg]) rest
  | writer_commit :: rest => pending ++ batch_committed [] rest
  | _ :: rest => batch_committed pending rest
  end.

(** The specification's reading of a failed backfill: when the iteration
    fails, what the run has committed to the index is what it had buffered from
    the messages read before the failure. *)
Definition partial_backfill_committed `{Common} (env : Environment)
    (chat_id min_id max_id : Z) (cloud : bool) (call_back : option (Z → outcome unit))
    (skip_indexing skip_existing : bool) (self : t) : Prop :=
  let h := iter_messages env chat_id min_id max_id in
  let r := download_history env chat_id min_id max_id cloud call_back skip_indexing
             skip_existing self in
  failure h ≠ None →
  batch_committed [] (drop (length (_indexer self)) (_indexer r.2))
  = flat_map (backfill_records chat_id (get_share_id chat_id) skip_indexing) (fetched h).

(** The keyword arguments [kw] of [BackendBotConfig]; [None] is a missing
    key. *)
Record BackendBotConfig_kw := {
  kw_monitor_all : option bool;
  kw_exclude_chats : option (list Z);
  kw_cloudstorage : option bool;
}.

(** [BackendBotConfig.__init__] on [kw]: the configuration, and its
    [excluded_chats]. *)
Definition BackendBotConfig__init__ `{Common} (kw : BackendBotConfig_kw)
    : BackendBotConfig * gset Z :=
  ({| monitor_all := default false (kw_monitor_all kw);
      cloudstorage := default false (kw_cloudstorage kw) |},
   list_to_set (get_share_id <$> default [] (kw_exclude_chats kw))).

(** The bot as [BackendBot.__init__] builds it from the configuration of
    [kw], over an index that holds documents of the chats [indexed]. *)
Definition new_backend `{Common} (kw : BackendBotConfig_kw)
    (cloud_client : Aws.AWSClient) (indexed : gset Z) : t :=
  let '(cfg, excluded) := BackendBotConfig__init__ kw in
  __init__ cfg excluded cloud_client indexed.

(** The index calls [clear] issues for one chat. *)
Definition clear_calls (chat_id : Z) : list ix_call :=
  [writer; writer_delete_by_term "chat_id" (pretty chat_id); writer_commit].

(** The messages the loop of [download_history] gets through, and the
    exception of the progress callback that stops it, if one does: the callback
    is called at the end of each round, with the id of the message. *)
Fixpoint callback_run (call_back : option (Z → outcome unit))
    (messages : list TgMessage.t) : list TgMessage.t * option exn :=
  match messages with
  | [] => ([], None)
  | m :: rest =>
      match from_option (λ f, f (TgMessage.id m)) (Returned tt) call_back with
      | Raised e => ([m], Some e)
      | Returned _ =>
          let '(done, stopped) := callback_run call_back rest in (m :: done, stopped)
      end
  end.

(** The rows and the objects behind the cloud client of a backend. *)
Definition rows_of (self : t) : option Aws.table := Aws.rows <$> _cloud_client self.

(** A body that leaves the rows behind the cloud client as they are. *)
Definition keeps_rows {A : Type} (m : M t A) : Prop := ∀ s, rows_of (m s).2 = rows_of s.

(** A body that, run on the rows [T], leaves them as they are or leaves rows
    that satisfy [Q]. *)
Definition rows_post {A : Type} (T : Aws.table) (Q : Aws.table → Prop) (m : M t A)
    : Prop :=
  ∀ s, rows_of s = Some T →
    rows_of (m s).2 = Some T ∨ ∃ T', rows_of (m s).2 = Some T' ∧ Q T'.

(** [T'] is [T] with one more row: the record of a message with the given
    chat id, message id and timestamp, under the key made of the chat id and
    the timestamp, which was free in [T]. *)
Definition archived_as (T : Aws.table) (chat_id message_id timestamp : Z)
    (T' : Aws.table) : Prop :=
  ∃ tm, TelegramMessage.chat_id tm = chat_id
        ∧ TelegramMessage.message_id tm = message_id
        ∧ TelegramMessage.timestamp tm = timestamp
        ∧ T !! [chat_id; timestamp] = None
        ∧ T' = <[ [chat_id; timestamp] := TelegramMessage.dict tm ]> T.

(** The message and the chat id an upload is about. *)
Definition uploaded_message (event : uploadable) : TgMessage.t :=
  match event with OfEvent e => NewMessage.message e | OfMessage m => m end.

Definition uploaded_chat_id (event : uploadable) : Z :=
  match event with OfEvent e => NewMessage.chat_id e | OfMessage m => TgMessage.chat_id m end.

End Backend.

(** ** frontend_bot.py *)

Module FakeRedis.

(** The in-memory replacement of the redis interface. The frontend's keys are
    the strings [{frontend_id}:query_text:{chat}:{msg}] and the like. *)
Record t := mk { _data : gmap string pyval }.

(** [FakeRedis()] *)
Definition __init__ : t := {| _data := ∅ |}.

(** [self._data.get(key)]: the stored value, [None] when there is none. *)
Definition get (self : t) (key : string) : pyval :=
  default PyNone (_data self !! key).

(** [self._data[key] = val] *)
Definition set (self : t) (key : string) (val : pyval) : t :=
  {| _data := <[key := val]> (_data self) |}.

Definition ping (self : t) : unit := tt.

(** A run of [set] calls, oldest first. *)
Definition set_all (self : t) (writes : list (string * pyval)) : t :=
  foldl (λ r kv, set r kv.1 kv.2) self writes.

End FakeRedis.

Module SearchResult.

(** [indexer.SearchResult], by the fields the frontend reads. *)
Record t := mk {
  hits : list (string * string);
  is_last_page : bool;
  total_results : Z;
}.

End SearchResult.

Module Button.

(** [Button.inline(text, data)] *)
Record t := inline { text : string; data : string }.

End Button.

Module Frontend.

Record BotFrontendConfig := { page_len : Z }.

(** Python's [a // b] on integers. *)
Definition floordiv (a b : Z) : outcome Z :=
  if b =? 0 then Raised ZeroDivisionError else Returned (a / b).

(** [BotFrontend._render_respond_buttons(result, cur_page_num)] *)
Definition _render_respond_buttons (_cfg : BotFrontendConfig)
    (result : SearchResult.t) (cur_page_num : Z) : outcome (list (list Button.t)) :=
  let '(former_page, former_text) :=
    if cur_page_num =? 1
    then ("", " ")
    else ("search_page=" +:+ pretty (cur_page_num - 1), "上一页⬅️") in
  let '(next_page, next_text) :=
    if SearchResult.is_last_page result
    then ("", " ")
    else ("search_page=" +:+ pretty (cur_page_num + 1), "➡️下一页") in
  match floordiv (- SearchResult.total_results result) (page_len _cfg) with
  | Raised e => Raised e
  | Returned q =>
      let total_pages := - q in
      Returned
        [ [ Button.inline former_text former_page;
            Button.inline (pretty cur_page_num +:+ " / " +:+ pretty total_pages) "";
            Button.inline next_text next_page ] ]
  end.

(** A button whose data is empty does nothing when pressed: the callback
    handler only acts when [event.data.strip()] is truthy. *)
Definition disabled (b : Button.t) : Prop := Button.data b = "".

(** The ceiling of the rational [a / b], for [b ≠ 0]. *)
Definition ceil_quotient (a b : Z) : Z :=
  Qround.Qceiling (QArith_base.Qdiv (QArith_base.inject_Z a) (QArith_base.inject_Z b)).

End Frontend.

(** ** A concrete platform, to run the model on examples *)

Module Sample.

(** An instance of [Common] for the examples below. [get_share_id] follows the
    platform's marked ids: a non-negative id stands for itself, a negative one
    for its absolute value, less the offset [10^12] that marks channels. The
    text functions are the identity, which is what they do on text without
    markup and without surrounding white space. *)
Definition resolve_id (marked_id : Z) : Z :=
  if 0 <=? marked_id then marked_id
  else
    let marked_id := - marked_id in
    if 1000000000000 <? marked_id then marked_id - 1000000000000 else marked_id.

#[export] Instance common : Common := {|
  get_share_id := resolve_id;
  escape_content := id;
  format_entity_name := λ u, default "" (User.first_name u);
  strip := id;
|}.

Definition alice : User.t := User.mk 1001 (Some "alice") (Some "Alice") None false.

(** A text message of the given chat. *)
Definition text_message (chat_id msg_id : Z) (body : string) : TgMessage.t :=
  {| TgMessage.id := msg_id;
     TgMessage.chat_id := chat_id;
     TgMessage.raw_text := Some body;
     TgMessage.text := Some body;
     TgMessage.date := 1700000000 + msg_id;
     TgMessage.sender := Some (IsUser alice);
     TgMessage.get_sender := Some (IsUser alice);
     TgMessage.reply_to := None;
     TgMessage.fwd_from := None;
     TgMessage.media := None;
     TgMessage.file := None |}.

(** A platform whose history of every chat is [h], and whose cloud client
    lacks [check_message_exist], as the one of [aws.py] does. *)
Definition platform (h : history) : Environment :=
  {| iter_messages := λ _ _ _, h;
     check_message_exist := λ _ _ _, Raised (AttributeError "check_message_exist");
     download_media := λ _, Returned "";
     transfer := λ _, Returned tt |}.

Definition no_history : history := {| fetched := []; failure := None |}.

(** A backend without cloud storage that monitors the given chats. *)
Definition backend (monitor_all : bool) (monitored excluded : gset Z) : Backend.t :=
  {| Backend._cfg := {| Backend.monitor_all := monitor_all; Backend.cloudstorage := false |};
     Backend.monitored_chats := monitored;
     Backend.excluded_chats := excluded;
     Backend.newest_msg := ∅;
     Backend._cloud_client := None;
     Backend._indexer := [];
     Backend._logger := [];
     Backend.uploads := [] |}.

(** A platform without history whose existence check answers "not archived"
    and whose transfers succeed. *)
Definition working_platform : Environment :=
  {| iter_messages := λ _ _ _, no_history;
     check_message_exist := λ _ _ _, Returned false;
     download_media := λ _, Returned "bytes";
     transfer := λ _, Returned tt |}.

Definition empty_client : Aws.AWSClient :=
  {| Aws._cfg := {| Aws.region_name := PyNone;
                    Aws.s3_bucket_name := PyStr "archive";
                    Aws.dynamo_table_name := Aws.DEFAULT_TABLE_NAME |};
     Aws.bucket := ∅;
     Aws.rows := ∅ |}.

(** A backend with cloud storage that monitors every chat. *)
Definition cloud_backend : Backend.t :=
  Backend.__init__ {| Backend.monitor_all := true; Backend.cloudstorage := true |}
    ∅ empty_client ∅.

(** The raw id of a channel and its canonical id. *)
Definition raw_channel : Z := -1001234567890.
Definition channel : Z := 1234567890.

End Sample.

(** ** Python text operations the frontend uses *)

Module Text.
Import Stdlib.Strings.Ascii.

(** Strings are the UTF-8 bytes of the text. The separators the frontend
    searches for are ASCII characters, and a byte of an ASCII character is
    never part of the encoding of another character, so finding, cutting and
    splitting at them is the same on the bytes as on the text; indices are
    only used to cut the string they were found in. *)

Definition len (s : string) : Z := Z.of_nat (String.length s).

(** [s.find(c)] for a one-character [c]: the index of the first occurrence,
    or [-1]. *)
Fixpoint find (c : Ascii.ascii) (s : string) : Z :=
  match s with
  | "" => -1
  | String a s' =>
      if Ascii.eqb a c then 0
      else let i := find c s' in if i <? 0 then -1 else i + 1
  end.

(** [s.index(c)]: as [find], but raises [ValueError] when there is none. *)
Definition index (c : Ascii.ascii) (s : string) : outcome Z :=
  let i := find c s in
  if i <? 0 then Raised (ValueError "substring not found") else Returned i.

Fixpoint drop (n : nat) (s : string) : string :=
  match n, s with
  | O, _ => s
  | S n', String _ s' => drop n' s'
  | S _, "" => ""
  end.

Fixpoint take (n : nat) (s : string) : string :=
  match n, s with
  | O, _ => ""
  | S n', String a s' => String a (take n' s')
  | S _, "" => ""
  end.

(** A slice bound, as Python reads it: a negative bound counts from the end. *)
Definition bound (i : Z) (s : string) : nat :=
  Z.to_nat (if i <? 0 then Z.max (len s + i) 0 else i).

(** [s[start:]] and [s[:stop]]. *)
Definition slice_from (start : Z) (s : string) : string := drop (bound start s) s.
Definition slice_to (stop : Z) (s : string) : string := take (bound stop s) s.

(** [s.split(sep)] for a one-character [sep]: never an empty list. *)
Fixpoint split (sep : Ascii.ascii) (s : string) : list string :=
  match s with
  | "" => [""]
  | String a s' =>
      if Ascii.eqb a sep then "" :: split sep s'
      else match split sep s' with
           | w :: ws => String a w :: ws
           | [] => [String a ""]
           end
  end.

(** The white space of [bytes.strip()]. *)
Definition is_space (a : Ascii.ascii) : bool :=
  match a with
  | " " | "009" | "010" | "011" | "012" | "013" => true
  | _ => false
  end%char.

Fixpoint forallb (P : Ascii.ascii → bool) (s : string) : bool :=
  match s with
  | "" => true
  | String a s' => P a && forallb P s'
  end.

(** [not data.strip()] for bytes: nothing but white space. *)
Definition blank (data : string) : bool := forallb is_space data.

Definition is_ascii (a : Ascii.ascii) : bool := (Ascii.N_of_ascii a <? 128)%N.

Definition is_digit (a : Ascii.ascii) : bool :=
  match a with
  | "0" | "1" | "2" | "3" | "4" | "5" | "6" | "7" | "8" | "9" => true
  | _ => false
  end%char.

(** The characters of the decimal form of an integer. *)
Definition is_numeral (a : Ascii.ascii) : bool := is_digit a || Ascii.eqb a "-".

End Text.

(** The builtins whose full behaviour is not modelled: [int] on a string, and
    [bytes.decode('utf-8')]. *)
Class Builtins := {
  py_int : string → outcome Z;
  decode_utf8 : string → outcome string;
}.

(** What is used of them: [int(str(z))] is [z], and text of ASCII characters
    decodes to itself. *)
Definition int_inverts_str `{Builtins} : Prop :=
  ∀ z : Z, py_int (pretty z) = Returned z.

Definition decodes_ascii `{Builtins} : Prop :=
  ∀ s, Text.forallb Text.is_ascii s = true → decode_utf8 s = Returned s.

(** An exception of a builtin that [exn] has no constructor for, by the name
    of its class. *)
Definition builtin_error (class : string) : exn := ExternalError class.

Module CallbackQuery.

(** [events.CallbackQuery.Event] *)
Record Event := mk { chat_id : Z; message_id : Z; data : string }.

End CallbackQuery.

(** What the frontend asks of the backend and of the platform. The hits of a
    search result are not modelled, so the text rendered from them by
    [_render_response_text] is taken as given. *)
Record Services := {
  backend_is_empty : bool;
  backend_search : pyval → pyval + list Z → Z → Z → outcome SearchResult.t;
  backend_translate_chat_id : Z → outcome string;
  _render_response_text : SearchResult.t → outcome string;
  respond_id : Z → string → outcome Z;
}.

(** ** frontend_bot.py: the search and pagination protocol *)

Module Bot.
Import Stdlib.Strings.Ascii.

(** What the frontend sends back. *)
Inductive bot_call :=
| reply (text : string)
| respond (text : string) (buttons : list (list Button.t))
| edit (text : string) (buttons : option (list (list Button.t)))
| answer.

(** [BotFrontend], with the in-memory correlation store; [calls] is what it
    has sent so far. *)
Record t := mk {
  id : string;
  _cfg : Frontend.BotFrontendConfig;
  _redis : FakeRedis.t;
  calls : list bot_call;
}.

Definition call (c : bot_call) : M t unit :=
  modify (λ self, mk (id self) (_cfg self) (_redis self) (calls self ++ [c])).

(** [self._redis.set(key, val)] *)
Definition redis_set (key : string) (val : pyval) : M t unit :=
  modify (λ self, mk (id self) (_cfg self) (FakeRedis.set (_redis self) key val)
                    (calls self)).

(** The keys of the correlation store. *)
Definition query_text_key (self : t) (chat_id msg_id : Z) : string :=
  id self +:+ ":query_text:" +:+ pretty chat_id +:+ ":" +:+ pretty msg_id.
Definition query_chats_key (self : t) (chat_id msg_id : Z) : string :=
  id self +:+ ":query_chats:" +:+ pretty chat_id +:+ ":" +:+ pretty msg_id.
Definition select_chat_key (self : t) (chat_id msg_id : Z) : string :=
  id self +:+ ":select_chat:" +:+ pretty chat_id +:+ ":" +:+ pretty msg_id.

(** [[f(x) for x in l]] *)
Fixpoint map_outcome {A B} (f : A → outcome B) (l : list A) : outcome (list B) :=
  match l with
  | [] => Returned []
  | x :: l' =>
      match f x with
      | Raised e => Raised e
      | Returned y =>
          match map_outcome f l' with
          | Raised e => Raised e
          | Returned ys => Returned (y :: ys)
          end
      end
  end.

Section WithBuiltins.
Context `{Builtins}.

(** [BotFrontendConfig._parse_redis_cfg(redis_cfg)] *)
Definition _parse_redis_cfg (redis_cfg : string) : outcome (string * Z) :=
  match Text.index ":"%char redis_cfg with
  | Raised e => Raised e
  | Returned colon_idx =>
      if colon_idx <? 0 then Raised (ValueError "No colon in redis host config")
      else
        match py_int (Text.slice_from (colon_idx + 1) redis_cfg) with
        | Raised e => Raised e
        | Returned port => Returned (Text.slice_to colon_idx redis_cfg, port)
        end
  end.

(** [int(v)] *)
Definition int (v : pyval) : outcome Z :=
  match v with
  | PyInt z => Returned z
  | PyBool b => Returned (if b then 1 else 0)
  | PyStr s => py_int s
  | PyNone => Raised (builtin_error "TypeError")
  end.

(** [BotFrontend._query_selected_chat(event)] *)
Definition _query_selected_chat (self : t) (event : NewMessage.Event)
    : outcome (option (list Z)) :=
  match TgMessage.reply_to (NewMessage.message event) with
  | Some reply_to_msg_id =>
      let redis_query_result :=
        FakeRedis.get (_redis self)
          (select_chat_key self (NewMessage.chat_id event) reply_to_msg_id) in
      if truthy redis_query_result
      then match int redis_query_result with
           | Raised e => Raised e
           | Returned chat_id => Returned (Some [chat_id])
           end
      else Returned None
  | None => Returned None
  end.

(** The query [_search] makes of the text of a message: a leading command or
    mention, up to the first space, is cut off. *)
Definition query_of (raw_text : string) : string :=
  if String.prefix "/" raw_text || String.prefix "@" raw_text
  then
    let first_space := Text.find " "%char raw_text in
    let first_space := if first_space <? 0 then Text.len raw_text else first_space in
    Text.slice_from (first_space + 1) raw_text
  else raw_text.

Section WithServices.
Variable srv : Services.

(** [BotFrontend._search(event)] *)
Definition _search (event : NewMessage.Event) : M t unit :=
  if backend_is_empty srv
  then call (reply "当前索引为空，请先 /download_chat 建立索引")
  else
    match NewMessage.raw_text event with
    | None => raise (AttributeError "startswith")
    | Some raw_text =>
        let q := query_of raw_text in
        if Text.len q =? 0 then mret tt
        else
          self ← gets (λ s, s);
          chats ← lift (_query_selected_chat self event);
          result ← lift (backend_search srv (PyStr q)
                           (match chats with Some l => inr l | None => inl PyNone end)
                           (Frontend.page_len (_cfg self)) 1);
          text ← lift (_render_response_text srv result);
          buttons ← lift (Frontend._render_respond_buttons (_cfg self) result 1);
          msg_id ← lift (respond_id srv (NewMessage.chat_id event) text);
          call (respond text buttons);;
          redis_set (query_text_key self (NewMessage.chat_id event) msg_id) (PyStr q);;
          match chats with
          | Some (chat :: more) =>
              redis_set (query_chats_key self (NewMessage.chat_id event) msg_id)
                (PyStr (String.concat "," (pretty <$> chat :: more)))
          | _ => mret tt
          end
    end.

(** The chat filter a page turn reads back: [chats and [int(c) for c in
    chats.split(',')]]. *)
Definition chats_filter (chats : pyval) : outcome (pyval + list Z) :=
  if truthy chats
  then match chats with
       | PyStr s =>
           match map_outcome py_int (Text.split ","%char s) with
           | Raised e => Raised e
           | Returned l => Returned (inr l)
           end
       | _ => Raised (AttributeError "split")
       end
  else Returned (inl chats).

(** [data[1]] *)
Definition second (data : list string) : outcome string :=
  match data !! 1%nat with
  | Some d => Returned d
  | None => Raised (builtin_error "IndexError")
  end.

(** [RuntimeError(f'unknown callback data: {event.data}')]; the data stands
    where a cause would. *)
Definition unknown_callback_data (data : string) : exn :=
  RuntimeError "unknown callback data" (ValueError data).

(** [BotFrontend._callback_handler(event)] *)
Definition _callback_handler (event : CallbackQuery.Event) : M t unit :=
  (if negb (Text.blank (CallbackQuery.data event))
   then
     text ← lift (decode_utf8 (CallbackQuery.data event));
     let data := Text.split "="%char text in
     if bool_decide (hd "" data = "search_page")
     then
       d ← lift (second data);
       page_num ← lift (py_int d);
       self ← gets (λ s, s);
       let q := FakeRedis.get (_redis self)
                  (query_text_key self (CallbackQuery.chat_id event)
                     (CallbackQuery.message_id event)) in
       let chats := FakeRedis.get (_redis self)
                      (query_chats_key self (CallbackQuery.chat_id event)
                         (CallbackQuery.message_id event)) in
       chats ← lift (chats_filter chats);
       if truthy q
       then
         result ← lift (backend_search srv q chats (Frontend.page_len (_cfg self)) page_num);
         response ← lift (_render_response_text srv result);
         buttons ← lift (Frontend._render_respond_buttons (_cfg self) result page_num);
         call (edit response (Some buttons))
       else mret tt
     else if bool_decide (hd "" data = "select_chat")
     then
       d ← lift (second data);
       chat_id ← lift (py_int d);
       chat_name ← lift (backend_translate_chat_id srv chat_id);
       self ← gets (λ s, s);
       call (edit ("回复本条消息以对 " +:+ chat_name +:+ " (" +:+ pretty chat_id
                   +:+ ") 进行操作") None);;
       redis_set (select_chat_key self (CallbackQuery.chat_id event)
                    (CallbackQuery.message_id event)) (PyInt chat_id)
     else raise (unknown_callback_data (CallbackQuery.data event))
   else mret tt);;
  call answer.

(** Showing a page of results in place of the message the buttons are on:
    what a page turn is meant to do. *)
Definition show_page (q : pyval) (chats : pyval + list Z) (page_num : Z) : M t unit :=
  self ← gets (λ s, s);
  result ← lift (backend_search srv q chats (Frontend.page_len (_cfg self)) page_num);
  response ← lift (_render_response_text srv result);
  buttons ← lift (Frontend._render_respond_buttons (_cfg self) result page_num);
  call (edit response (Some buttons)).

(** The chat filter of a search, as the backend is given it. *)
Definition scope_of (chats : option (list Z)) : pyval + list Z :=
  match chats with Some l => inr l | None => inl PyNone end.


End WithServices.
End WithBuiltins.

End Bot.

(** ** Concrete builtins, for the examples *)

Module SampleBuiltins.
Import Stdlib.Strings.Ascii.

(** The value of a decimal digit, from its character code (48 to 57). *)
Definition digit_value (a : Ascii.ascii) : option N :=
  let code := N_of_ascii a in
  if ((48 <=? code) && (code <=? 57))%N then Some (code - 48)%N else None.

Fixpoint parse_digits (acc : N) (s : string) : option N :=
  match s with
  | "" => Some acc
  | String a s' =>
      match digit_value a with
      | Some d => parse_digits (acc * 10 + d) s'
      | None => None
      end
  end.

(** [int] on an optional minus sign followed by decimal digits; anything else
    is refused (the real [int] accepts more, such as surrounding white space). *)
Definition parse_int (s : string) : outcome Z :=
  let digits := match s with String "-"%char s' => s' | _ => s end in
  let sign := match s with String "-"%char _ => -1 | _ => 1 end in
  match digits with
  | "" => Raised (ValueError "invalid literal for int()")
  | _ =>
      match parse_digits 0 digits with
      | Some n => Returned (sign * Z.of_N n)
      | None => Raised (ValueError "invalid literal for int()")
      end
  end.

#[export] Instance builtins : Builtins := {|
  py_int := parse_int;
  decode_utf8 := λ s,
    if Text.forallb Text.is_ascii s then Returned s
    else Raised (builtin_error "UnicodeDecodeError");
|}.

(** A frontend whose backend finds, for every query, 25 results in pages of
    10, and whose responses get the message id 500. *)
Definition services : Services :=
  {| backend_is_empty := false;
     backend_search := λ _ _ page_len page_num,
       Returned (SearchResult.mk [] (25 <=? page_len * page_num) 25);
     backend_translate_chat_id := λ _, Returned "chat";
     _render_response_text := λ _, Returned "results";
     respond_id := λ _ _, Returned 500 |}.

Definition bot : Bot.t :=
  Bot.mk "fe" {| Frontend.page_len := 10 |} FakeRedis.__init__ [].

End SampleBuiltins.

(** * Properties *)

(** ** The correlation store *)

Section FakeRedisFacts.
Implicit Types (r : FakeRedis.t) (k : string) (v : pyval).

Lemma FakeRedis_get_set_eq r k v : FakeRedis.get (FakeRedis.set r k v) k = v.
Proof. unfold FakeRedis.get, FakeRedis.set; simpl. by rewrite lookup_insert_eq. Qed.

Lemma FakeRedis_get_set_ne r k k' v :
  k ≠ k' → FakeRedis.get (FakeRedis.set r k v) k' = FakeRedis.get r k'.
Proof.
  intros Hne. unfold FakeRedis.get, FakeRedis.set; simpl.
  by rewrite lookup_insert_ne.
Qed.

Lemma FakeRedis_set_all_app r (ws ws' : list (string * pyval)) :
  FakeRedis.set_all r (ws ++ ws') = FakeRedis.set_all (FakeRedis.set_all r ws) ws'.
Proof. unfold FakeRedis.set_all. apply foldl_app. Qed.

Lemma FakeRedis_get_set_all_other r k (ws : list (string * pyval)) :
  Forall (λ kv, kv.1 ≠ k) ws →
  FakeRedis.get (FakeRedis.set_all r ws) k = FakeRedis.get r k.
Proof.
  intros Hws. revert r. induction Hws as [|[k' v'] ws Hk _ IH]; intros r; [done|].
  simpl in *. unfold FakeRedis.set_all in *. simpl.
  rewrite IH. by apply FakeRedis_get_set_ne.
Qed.

(** C10. In the in-memory store, [get(k)] after [set(k, v)] gives [v], also
    when [k] held another value before and whatever was written to other keys
    in between (the last write wins), and [get] of a key that no [set] has
    written gives [None]. *)
Theorem FakeRedis_get_after_set r k v v' (ws : list (string * pyval)) :
  let others := filter (λ kv, kv.1 ≠ k) ws in
  FakeRedis.get (FakeRedis.set r k v) k = v
  ∧ FakeRedis.get (FakeRedis.set (FakeRedis.set r k v') k v) k = v
  ∧ FakeRedis.get (FakeRedis.set_all (FakeRedis.set (FakeRedis.set_all r ws) k v) others) k = v
  ∧ FakeRedis.get (FakeRedis.set_all FakeRedis.__init__ others) k = PyNone.
Proof.
  intros others.
  assert (Hothers : Forall (λ kv : string * pyval, kv.1 ≠ k) others).
  { apply Forall_forall. intros kv Hin. by apply list_elem_of_filter in Hin as [? _]. }
  repeat split.
  - apply FakeRedis_get_set_eq.
  - apply FakeRedis_get_set_eq.
  - rewrite FakeRedis_get_set_all_other by done. apply FakeRedis_get_set_eq.
  - rewrite FakeRedis_get_set_all_other by done. reflexivity.
Qed.

End FakeRedisFacts.

(** ** Pagination buttons *)

Section Pagination.
Import Frontend.

(** Python's [-(-a // b)] is the ceiling of the quotient. *)
Lemma neg_floordiv_neg_ceiling (a b : Z) : b ≠ 0 → - (- a / b) = ceil_quotient a b.
Proof.
  intros Hb. unfold ceil_quotient, Qround.Qceiling, Qround.Qfloor.
  destruct b as [|p|p]; [done| |]; cbn.
  - by rewrite Z.mul_1_r.
  - rewrite <- (Z.div_opp_opp _ (Z.pos p)) by done.
    f_equal. f_equal. lia.
Qed.

Lemma search_page_not_empty (n : Z) : "search_page=" +:+ pretty n ≠ "".
Proof. done. Qed.

(** C7. Whenever the page length is not zero the button row is rendered, and
    in it the "previous" button is disabled exactly on page 1, the "next"
    button is disabled exactly when the gateway reports the last page, and the
    middle label shows the current page and [ceil(total_results / page_len)]. *)
Theorem render_respond_buttons_spec (cfg : BotFrontendConfig)
    (result : SearchResult.t) (cur_page_num : Z) :
  page_len cfg ≠ 0 →
  ∃ former label next,
    _render_respond_buttons cfg result cur_page_num = Returned [[former; label; next]]
    ∧ (disabled former ↔ cur_page_num = 1)
    ∧ (disabled next ↔ SearchResult.is_last_page result = true)
    ∧ Button.text label =
        pretty cur_page_num +:+ " / "
        +:+ pretty (ceil_quotient (SearchResult.total_results result) (page_len cfg)).
Proof.
  intros Hlen. unfold _render_respond_buttons, floordiv.
  rewrite (proj2 (Z.eqb_neq _ _) Hlen).
  rewrite neg_floordiv_neg_ceiling by done.
  destruct (Z.eqb_spec cur_page_num 1) as [Hcur|Hcur];
    destruct (SearchResult.is_last_page result); simpl;
    eexists _, _, _; (split; [reflexivity|]); unfold disabled; simpl;
    repeat split; try done.
Qed.

(** The example of the specification: 25 results in pages of 10. *)
Lemma render_respond_buttons_witness :
  page_len {| page_len := 10 |} ≠ 0
  ∧ ∃ former label next,
      _render_respond_buttons {| page_len := 10 |} (SearchResult.mk [] false 25) 2
        = Returned [[former; label; next]]
      ∧ (disabled former ↔ 2 = 1)
      ∧ (disabled next ↔ SearchResult.is_last_page (SearchResult.mk [] false 25) = true)
      ∧ Button.text label =
          pretty 2 +:+ " / " +:+ pretty (ceil_quotient
            (SearchResult.total_results (SearchResult.mk [] false 25))
            (page_len {| page_len := 10 |})).
Proof.
  split; [simpl; lia|].
  apply (render_respond_buttons_spec {| page_len := 10 |} (SearchResult.mk [] false 25) 2).
  simpl; lia.
Defined.

Example render_25_results_page_1 :
  _render_respond_buttons {| page_len := 10 |} (SearchResult.mk [] false 25) 1
  = Returned [[Button.inline " " ""; Button.inline "1 / 3" "";
               Button.inline "➡️下一页" "search_page=2"]].
Proof. vm_compute. reflexivity. Qed.

Example render_25_results_page_3 :
  _render_respond_buttons {| page_len := 10 |} (SearchResult.mk [] true 25) 3
  = Returned [[Button.inline "上一页⬅️" "search_page=2"; Button.inline "3 / 3" "";
               Button.inline " " ""]].
Proof. vm_compute. reflexivity. Qed.

Example render_page_len_zero :
  _render_respond_buttons {| page_len := 0 |} (SearchResult.mk [] true 25) 1
  = Raised ZeroDivisionError.
Proof. reflexivity. Qed.

End Pagination.

(** ** The structured store *)

Section ArchivalDedup.
Import Aws.

(** An item that has a primary key has the sort-key attribute. *)
Lemma primary_key_timestamp (it : item) (k : list Z) :
  primary_key it = Some k → it !! "timestamp" ≠ None.
Proof.
  unfold primary_key, DEFAULT_KEY_SCHEMA; simpl. unfold key_attribute.
  destruct (it !! "chatId") as [[]|]; try done.
  destruct (it !! "timestamp") as [[]|]; done.
Qed.

(** The guard holds on the empty item and fails on every stored item. *)
Lemma guard_on_stored (names := ({[ "#ts" := "timestamp" ]} : gmap string string))
    (row : item) (k : list Z) :
  primary_key row = Some k →
  eval_condition names
    (AND (attribute_not_exists "chat_id") (attribute_not_exists "#ts")) row = false.
Proof.
  intros Hk%primary_key_timestamp. simpl.
  apply andb_false_iff. right. apply bool_decide_eq_false.
  by unfold resolve_name, names; rewrite lookup_singleton_eq.
Qed.

Lemma put_item_to_dynamo_fresh (tbl : table) (it : item) (k : list Z) :
  primary_key it = Some k → tbl !! k = None →
  put_item_to_dynamo (Some it) tbl = (Returned tt, <[k := it]> tbl).
Proof.
  intros Hk Hnone. unfold put_item_to_dynamo, try_except, put_item.
  by rewrite Hk, Hnone.
Qed.

Lemma put_item_to_dynamo_existing (tbl : table) (it row : item) (k : list Z) :
  table_wf tbl → primary_key it = Some k → tbl !! k = Some row →
  put_item_to_dynamo (Some it) tbl = (Raised duplicate_record_error, tbl).
Proof.
  intros Hwf Hk Hrow. unfold put_item_to_dynamo, try_except, put_item.
  rewrite Hk, Hrow. cbn [from_option id].
  by rewrite (guard_on_stored row k (Hwf _ _ Hrow)).
Qed.

Lemma put_item_to_dynamo_wf (tbl : table) (it : option item) :
  table_wf tbl → table_wf (put_item_to_dynamo it tbl).2.
Proof.
  intros Hwf. destruct it as [it|]; [|done].
  unfold put_item_to_dynamo, try_except, put_item.
  destruct (primary_key it) as [k|] eqn:Hk; [|done].
  destruct (eval_condition _ _ _); [|done]. simpl.
  intros k' it' Hlook. destruct (decide (k = k')) as [<-|Hne].
  - rewrite lookup_insert_eq in Hlook. by simplify_eq.
  - rewrite lookup_insert_ne in Hlook by done. by apply Hwf.
Qed.

Lemma rows_with_key_stored (tbl : table) (k : list Z) (row : item) :
  table_wf tbl → tbl !! k = Some row → rows_with_key k tbl = {[ k := row ]}.
Proof.
  intros Hwf Hrow. apply map_eq. intros k'. unfold rows_with_key.
  destruct (decide (k = k')) as [<-|Hne].
  - rewrite lookup_singleton_eq. apply map_lookup_filter_Some. split; [done|].
    simpl. by apply Hwf.
  - rewrite lookup_singleton_ne by done. apply map_lookup_filter_None.
    right. intros it Hit Hkey. simpl in Hkey.
    apply Hwf in Hit. congruence.
Qed.

(** C3. On a table whose rows carry their keys, writing two items with the
    same primary key one after the other: the second call raises the
    duplicate-record error and leaves the table exactly as the first call left
    it, in which exactly one row has that key; and when a row with that key was
    already stored, the first call is refused in the same way. *)
Theorem put_item_to_dynamo_rejects_duplicate (tbl : table) (it1 it2 : item) (k : list Z) :
  table_wf tbl → primary_key it1 = Some k → primary_key it2 = Some k →
  let first := put_item_to_dynamo (Some it1) tbl in
  let second := put_item_to_dynamo (Some it2) first.2 in
  second = (Raised duplicate_record_error, first.2)
  ∧ size (rows_with_key k second.2) = 1%nat
  ∧ first = match tbl !! k with
            | Some _ => (Raised duplicate_record_error, tbl)
            | None => (Returned tt, <[k := it1]> tbl)
            end.
Proof.
  intros Hwf Hk1 Hk2 first second.
  assert (Hfirst : first = match tbl !! k with
                           | Some _ => (Raised duplicate_record_error, tbl)
                           | None => (Returned tt, <[k := it1]> tbl)
                           end).
  { subst first. destruct (tbl !! k) as [row|] eqn:Hrow.
    - by eapply put_item_to_dynamo_existing.
    - by apply put_item_to_dynamo_fresh. }
  assert (Hwf1 : table_wf first.2) by (by apply put_item_to_dynamo_wf).
  assert (Hstored : ∃ row, first.2 !! k = Some row).
  { rewrite Hfirst. destruct (tbl !! k) as [row|] eqn:Hrow; simpl; [by eauto|].
    exists it1. by rewrite lookup_insert_eq. }
  destruct Hstored as [row Hrow].
  assert (Hsecond : second = (Raised duplicate_record_error, first.2)).
  { subst second. by eapply put_item_to_dynamo_existing. }
  split; [done|]. split; [|done].
  rewrite Hsecond. simpl.
  rewrite (rows_with_key_stored _ _ row) by done.
  apply map_size_singleton.
Qed.

(** Two archived messages of one chat with the same timestamp, written to an
    empty table. *)
Lemma put_item_to_dynamo_rejects_duplicate_witness :
  let it1 : item := {[ "chatId" := AttrN 7; "timestamp" := AttrN 1700000000;
                       "messageId" := AttrN 1 ]} in
  let it2 : item := {[ "chatId" := AttrN 7; "timestamp" := AttrN 1700000000;
                       "messageId" := AttrN 2 ]} in
  let k := [7; 1700000000] in
  let first := put_item_to_dynamo (Some it1) ∅ in
  let second := put_item_to_dynamo (Some it2) first.2 in
  (table_wf ∅ ∧ primary_key it1 = Some k ∧ primary_key it2 = Some k)
  ∧ second = (Raised duplicate_record_error, first.2)
  ∧ size (rows_with_key k second.2) = 1%nat
  ∧ first = match (∅ : table) !! k with
            | Some _ => (Raised duplicate_record_error, ∅)
            | None => (Returned tt, <[k := it1]> ∅)
            end.
Proof.
  intros it1 it2 k.
  assert (Hwf : table_wf ∅) by (intros k' it Hlook; by rewrite lookup_empty in Hlook).
  assert (Hk1 : primary_key it1 = Some k) by (vm_compute; reflexivity).
  assert (Hk2 : primary_key it2 = Some k) by (vm_compute; reflexivity).
  split; [done|].
  exact (put_item_to_dynamo_rejects_duplicate ∅ it1 it2 k Hwf Hk1 Hk2).
Defined.

(** The records [cloud_upload_message] writes have the declared key: the
    canonical chat id and the timestamp of the message. *)
Lemma dict_primary_key (m : TelegramMessage.t) :
  primary_key (TelegramMessage.dict m)
  = Some [TelegramMessage.chat_id m; TelegramMessage.timestamp m].
Proof. reflexivity. Qed.

End ArchivalDedup.

(** ** The monitoring gate *)

Section MonitoringGate.
Context `{Common}.
Import Backend.

(** C4. [_should_monitor] answers true exactly when the canonical id is not
    excluded, under [monitor_all], and exactly when the canonical id is
    monitored, otherwise. *)
Theorem should_monitor_iff (self : Backend.t) (chat_id : Z) :
  _should_monitor self chat_id = true ↔
  if monitor_all (_cfg self)
  then get_share_id chat_id ∉ excluded_chats self
  else get_share_id chat_id ∈ monitored_chats self.
Proof.
  unfold _should_monitor. destruct (monitor_all (_cfg self)).
  - rewrite negb_true_iff, bool_decide_eq_false. done.
  - apply bool_decide_eq_true.
Qed.

End MonitoringGate.

(** ** What archival leaves alone *)

Section ArchivalFrame.
Context `{Common}.
Variable env : Environment.
Import Backend.

Lemma frame_refl s : frame s s.
Proof. by repeat split. Qed.

Lemma frame_trans s1 s2 s3 : frame s1 s2 → frame s2 s3 → frame s1 s3.
Proof.
  intros (?&?&?&?&?&?) (?&?&?&?&?&?). repeat split; congruence.
Qed.

Lemma framed_ret {A} (a : A) : framed (mret a).
Proof. intros s. apply frame_refl. Qed.

Lemma framed_raise {A} (e : exn) : framed (raise e : M Backend.t A).
Proof. intros s. apply frame_refl. Qed.

Lemma framed_lift {A} (o : outcome A) : framed (lift o).
Proof. intros s. apply frame_refl. Qed.

Lemma framed_gets {A} (f : Backend.t → A) : framed (gets f).
Proof. intros s. apply frame_refl. Qed.

Lemma framed_log (r : log_record) : framed (log r).
Proof. intros s. by repeat split. Qed.

Lemma framed_with_client {A} (m : M Aws.AWSClient A) : framed (with_client m).
Proof.
  intros s. unfold with_client. destruct (_cloud_client s) as [c|]; [|apply frame_refl].
  destruct (m c) as [o c']. by repeat split.
Qed.

Lemma framed_bind {A B} (m : M Backend.t A) (k : A → M Backend.t B) :
  framed m → (∀ a, framed (k a)) → framed (m ≫= k).
Proof.
  intros Hm Hk s. unfold mbind, M_bind, bind.
  specialize (Hm s). destruct (m s) as [[a|e] s']; simpl in *; [|done].
  eapply frame_trans; [done|apply Hk].
Qed.

Lemma framed_try_except {A} (body : M Backend.t A) (handler : exn → M Backend.t A) :
  framed body → (∀ e, framed (handler e)) → framed (try_except body handler).
Proof.
  intros Hb Hh s. unfold try_except.
  specialize (Hb s). destruct (body s) as [[a|e] s']; simpl in *; [done|].
  eapply frame_trans; [done|apply Hh].
Qed.

Ltac framed_step :=
  lazymatch goal with
  | |- framed (_ ≫= _) => apply framed_bind; [|intros]
  | |- framed (mret _) => apply framed_ret
  | |- framed (lift _) => apply framed_lift
  | |- framed (gets _) => apply framed_gets
  | |- framed (log _) => apply framed_log
  | |- framed (with_client _) => apply framed_with_client
  | |- framed (raise _) => apply framed_raise
  | |- framed (try_except _ _) => apply framed_try_except; [|intros]
  | |- framed (match ?x with _ => _ end) => destruct x
  end.

Lemma framed_upload_media message chat_id message_id timestamp m :
  framed (upload_media env message chat_id message_id timestamp m).
Proof. unfold upload_media. repeat framed_step. Qed.

Lemma framed_upload_body event skip_existing :
  framed (upload_body env event skip_existing).
Proof.
  unfold upload_body. cbv zeta.
  repeat first [apply framed_upload_media | framed_step].
Qed.

(** [cloud_upload_message] returns, whatever the services answer; it records
    its call and otherwise touches only the cloud client and the log. *)
Lemma cloud_upload_message_effect event skip_existing s :
  ∃ s', cloud_upload_message env event skip_existing s = (Returned tt, s')
        ∧ _cfg s' = _cfg s
        ∧ monitored_chats s' = monitored_chats s
        ∧ excluded_chats s' = excluded_chats s
        ∧ newest_msg s' = newest_msg s
        ∧ _indexer s' = _indexer s
        ∧ uploads s' = uploads s ++ [(event, skip_existing)].
Proof.
  unfold cloud_upload_message, mbind, M_bind, bind, modify, gets. simpl.
  destruct (_cloud_client s) as [c|] eqn:Hc.
  - unfold try_except.
    set (s0 := set_uploads _ s).
    pose proof (framed_upload_body event skip_existing s0) as Hf.
    destruct (upload_body env event skip_existing s0) as [[[]|e] s1]; simpl in Hf.
    + exists s1. destruct Hf as (?&?&?&?&?&?). by repeat split.
    + eexists. split; [reflexivity|]. destruct Hf as (?&?&?&?&?&?).
      by repeat split.
  - eexists. split; [reflexivity|]. by repeat split.
Qed.

End ArchivalFrame.

(** ** The live handlers *)

Section LiveHandlers.
Context `{Common}.
Variable env : Environment.
Import Backend.

Lemma truthy_PyStr (s : string) : truthy (PyStr s) = bool_decide (s ≠ "").
Proof. unfold truthy. by repeat case_bool_decide. Qed.

Lemma client_message_handler_effect (event : NewMessage.Event) (s : Backend.t) :
  let gate := _should_monitor s (NewMessage.chat_id event) in
  let indexed := gate && bool_decide (_extract_text (NewMessage.raw_text event) ≠ "") in
  ∃ s', client_message_handler env event s = (Returned tt, s')
        ∧ _cfg s' = _cfg s
        ∧ monitored_chats s' = monitored_chats s
        ∧ excluded_chats s' = excluded_chats s
        ∧ newest_msg s' =
            (if indexed
             then <[get_share_id (NewMessage.chat_id event) := live_record event]> (newest_msg s)
             else newest_msg s)
        ∧ _indexer s' = _indexer s ++ (if indexed then [add_document (live_record event)] else [])
        ∧ uploads s' = uploads s ++
            (if gate && cloudstorage (_cfg s) then [(OfEvent event, true)] else []).
Proof.
  intros gate indexed. subst indexed. rewrite <- truthy_PyStr.
  unfold client_message_handler, mbind, M_bind, bind, gets. cbn beta iota. unfold id at 1.
  fold gate. destruct gate; cbn [andb].
  2:{ eexists. split; [reflexivity|]. rewrite !app_nil_r. by repeat split. }
  fold (live_record event). unfold id.
  set (s1 := if truthy (PyStr (_extract_text (NewMessage.raw_text event)))
             then set_indexer (_indexer s ++ [add_document (live_record event)])
                    (set_newest_msg
                       (<[get_share_id (NewMessage.chat_id event) := live_record event]>
                          (newest_msg s)) s)
             else s).
  assert (Hs1 : when (truthy (PyStr (_extract_text (NewMessage.raw_text event))))
                  (λ s0, let (o, s'0) :=
                     modify (λ self, set_newest_msg
                       (<[get_share_id (NewMessage.chat_id event) := live_record event]>
                          (newest_msg self)) self) s0 in
                     match o with
                     | Returned _ => issue (add_document (live_record event)) s'0
                     | Raised e => (Raised e, s'0)
                     end) s = (Returned tt, s1)).
  { subst s1. by destruct (truthy _). }
  rewrite Hs1.
  assert (Hframe1 : _cfg s1 = _cfg s ∧ monitored_chats s1 = monitored_chats s
                    ∧ excluded_chats s1 = excluded_chats s ∧ uploads s1 = uploads s).
  { subst s1. by destruct (truthy _). }
  destruct Hframe1 as (Hcfg & Hmon & Hexc & Hupl).
  assert (Hnew : newest_msg s1 =
                 if truthy (PyStr (_extract_text (NewMessage.raw_text event)))
                 then <[get_share_id (NewMessage.chat_id event) := live_record event]>
                        (newest_msg s)
                 else newest_msg s).
  { subst s1. by destruct (truthy _). }
  assert (Hix : _indexer s1 = _indexer s ++
                 if truthy (PyStr (_extract_text (NewMessage.raw_text event)))
                 then [add_document (live_record event)] else []).
  { subst s1. destruct (truthy _); [done|]. by rewrite app_nil_r. }
  clearbody s1. clear Hs1.
  destruct (cloudstorage (_cfg s)); unfold when.
  - destruct (cloud_upload_message_effect env (OfEvent event) true s1)
      as (s2 & Hrun & ? & ? & ? & ? & ? & ?).
    exists s2. rewrite Hrun. repeat split; congruence.
  - exists s1. rewrite app_nil_r. by repeat split.
Qed.

(** C5. A live new-message event issues an index add exactly when the chat
    passes the monitoring gate and the extracted text is not empty (one add,
    of the record built from the event), and, with cloud storage enabled, the
    archival sink is called for the event exactly when the chat passes the
    gate, whether or not the text is empty. *)
Theorem client_message_handler_spec (event : NewMessage.Event) (self : Backend.t) :
  let after := client_message_handler env event self in
  let gate := _should_monitor self (NewMessage.chat_id event) in
  let text := _extract_text (NewMessage.raw_text event) in
  after.1 = Returned tt
  ∧ _indexer after.2 = _indexer self ++
      (if gate && bool_decide (text ≠ "") then [add_document (live_record event)] else [])
  ∧ uploads after.2 = uploads self ++
      (if gate && cloudstorage (_cfg self) then [(OfEvent event, true)] else []).
Proof.
  intros after gate text. subst after.
  destruct (client_message_handler_effect event self)
    as (s' & Hrun & _ & _ & _ & _ & Hix & Hupl).
  rewrite Hrun. by repeat split.
Qed.

End LiveHandlers.

(** ** Archival failures stay inside [cloud_upload_message] *)

Section ArchivalIsolation.
Context `{Common}.
Import Backend.

Lemma should_monitor_index_view (s s' : Backend.t) (chat_id : Z) :
  index_view s = index_view s' → _should_monitor s chat_id = _should_monitor s' chat_id.
Proof.
  unfold index_view, _should_monitor. intros Heq.
  injection Heq as Hc Hm He _ _. by rewrite Hc, Hm, He.
Qed.

Lemma client_message_handler_index_view (env env' : Environment)
    (event : NewMessage.Event) (s s' : Backend.t) :
  index_view s = index_view s' →
  (client_message_handler env event s).1 = Returned tt
  ∧ index_view (client_message_handler env event s).2
    = index_view (client_message_handler env' event s').2.
Proof.
  intros Hview.
  destruct (client_message_handler_effect env event s)
    as (s1 & Hrun & Hc & Hm & He & Hn & Hi & _).
  destruct (client_message_handler_effect env' event s')
    as (s1' & Hrun' & Hc' & Hm' & He' & Hn' & Hi' & _).
  rewrite Hrun, Hrun'. split; [done|]. simpl.
  rewrite <- (should_monitor_index_view s s') in Hn', Hi' by done.
  unfold index_view in *. injection Hview as Vc Vm Ve Vn Vi.
  by rewrite Hc, Hm, He, Hn, Hi, Hc', Hm', He', Hn', Hi', Vc, Vm, Ve, Vn, Vi.
Qed.

Lemma handlers_index_view (env env' : Environment)
    (events : list NewMessage.Event) (s s' : Backend.t) :
  index_view s = index_view s' →
  (for_each events (client_message_handler env) s).1 = Returned tt
  ∧ index_view (for_each events (client_message_handler env) s).2
    = index_view (for_each events (client_message_handler env') s').2.
Proof.
  revert s s'. induction events as [|event events IH]; intros s s' Hview; [done|].
  simpl. unfold bind.
  destruct (client_message_handler_index_view env env' event s s' Hview) as [Hret Hnext].
  destruct (client_message_handler_index_view env' env event s' s (eq_sym Hview))
    as [Hret' _].
  destruct (client_message_handler env event s) as [o s1].
  destruct (client_message_handler env' event s') as [o' s1'].
  simpl in *. subst o o'. by apply IH.
Qed.

(** C6. [cloud_upload_message] returns normally whatever the existence check,
    the media transfer and the structured store answer, and it leaves the
    monitoring state and the index calls as they were; an exception raised
    inside its body ends in an error record in the log. So a run of live
    handlers never raises, and issues the same index calls whatever the
    services answer and whatever the cloud client holds. *)
Theorem cloud_upload_message_never_raises (env env' : Environment)
    (event : uploadable) (skip_existing : bool)
    (events : list NewMessage.Event) (client client' : option Aws.AWSClient)
    (self : Backend.t) :
  let run e c := for_each events (client_message_handler e) (set_cloud_client c self) in
  (cloud_upload_message env event skip_existing self).1 = Returned tt
  ∧ index_view (cloud_upload_message env event skip_existing self).2 = index_view self
  ∧ match _cloud_client self with
    | Some _ =>
        match upload_body env event skip_existing
                (set_uploads (uploads self ++ [(event, skip_existing)]) self) with
        | (Raised e, s) =>
            (cloud_upload_message env event skip_existing self).2
            = set_logger (_logger s ++ [error ("Failed to upload message "
                +:+ pretty (event_id event) +:+ " to cloud") e]) s
        | (Returned _, s) => (cloud_upload_message env event skip_existing self).2 = s
        end
    | None => True
    end
  ∧ (run env client).1 = Returned tt
  ∧ index_view (run env client).2 = index_view (run env' client').2.
Proof.
  intros run.
  assert (Hviews : index_view (set_cloud_client client self)
                   = index_view (set_cloud_client client' self)) by done.
  destruct (handlers_index_view env env' events _ _ Hviews) as [Hret Hsame].
  destruct (cloud_upload_message_effect env event skip_existing self)
    as (s' & Hrun & Hc & Hm & He & Hn & Hi & _).
  split_and!; [by rewrite Hrun| |clear Hrun|done|done].
  - rewrite Hrun. unfold index_view. simpl. by rewrite Hc, Hm, He, Hn, Hi.
  - unfold cloud_upload_message, mbind, M_bind, bind, modify, gets, try_except.
    simpl. destruct (_cloud_client self); [|done].
    by destruct (upload_body _ _ _ _) as [[[]|e] s].
Qed.

End ArchivalIsolation.

Section ArchivalExamples.
Import Backend Sample.

(** A monitored text message on the cloud client of [aws.py]: the existence
    check raises, the failure is logged, and the message is indexed. *)
Example live_message_with_failing_archival :
  let event := NewMessage.mk (text_message raw_channel 7 "hello") in
  let r := client_message_handler (platform no_history) event cloud_backend in
  r.1 = Returned tt
  ∧ _indexer r.2
    = [add_document (IndexMsg.mk (PyStr "hello") "https://t.me/c/1234567890/7" channel
                       1700000007 "Alice")]
  ∧ _logger r.2
    = [error "Failed to upload message 7 to cloud" (AttributeError "check_message_exist")]
  ∧ uploads r.2 = [(OfEvent event, true)].
Proof. vm_compute. done. Qed.

(** With an existence check that answers, the message is archived once; a
    second upload of it is refused by the store and the refusal is logged. *)
Example message_archived_once :
  let m := text_message raw_channel 7 "hello" in
  let first := cloud_upload_message working_platform (OfMessage m) false cloud_backend in
  let second := cloud_upload_message working_platform (OfMessage m) false first.2 in
  first.1 = Returned tt ∧ _logger first.2 = []
  ∧ second.1 = Returned tt
  ∧ _logger second.2
    = [error "Failed to upload message 7 to cloud" Aws.duplicate_record_error]
  ∧ (size <$> (Aws.rows <$> _cloud_client second.2)) = Some 1%nat.
Proof. vm_compute. done. Qed.

End ArchivalExamples.

(** ** Deletions *)

Section Deletions.
Context `{Common}.
Import Backend.

Lemma set_indexer_app_nil (s : Backend.t) : set_indexer (_indexer s ++ []) s = s.
Proof. destruct s. unfold set_indexer. simpl. by rewrite app_nil_r. Qed.

Lemma for_each_issue {A} (f : A → ix_call) (l : list A) (s : Backend.t) :
  for_each l (λ x, issue (f x)) s = (Returned tt, set_indexer (_indexer s ++ map f l) s).
Proof.
  revert s. induction l as [|x l IH]; intros s; simpl.
  - by rewrite set_indexer_app_nil.
  - unfold bind, issue at 1, modify. rewrite IH. unfold set_indexer. simpl.
    by rewrite <- app_assoc.
Qed.

(** C8, as the code has it. A delete notification that names its chat, and
    whose chat passes the monitoring gate, issues one index delete per deleted
    message id, in order, for the url made of the canonical chat id and that
    message id; a notification without a chat id, or of a chat that does not
    pass the gate, issues nothing. Nothing else of the backend changes. *)
Theorem client_message_delete_handler_spec (event : MessageDeleted.Event)
    (self : Backend.t) :
  client_message_delete_handler event self
  = (Returned tt, set_indexer (_indexer self ++ deletes_of self event) self).
Proof.
  unfold client_message_delete_handler, deletes_of.
  destruct (MessageDeleted.chat_id event) as [chat_id|].
  - unfold mbind, M_bind, bind, gets. cbn beta iota. unfold id.
    destruct (_should_monitor self chat_id).
    + apply for_each_issue.
    + by rewrite set_indexer_app_nil.
  - by rewrite set_indexer_app_nil.
Qed.

End Deletions.

Section DeletionExamples.
Import Backend Sample.

Example delete_handler_runs :
  let unnamed := MessageDeleted.mk None [5; 6] in
  let named := MessageDeleted.mk (Some raw_channel) [5; 6] in
  _indexer (client_message_delete_handler unnamed (backend true ∅ ∅)).2 = []
  ∧ _indexer (client_message_delete_handler named (backend false {[ 42 ]} ∅)).2 = []
  ∧ _indexer (client_message_delete_handler named (backend false {[ channel ]} ∅)).2
    = [delete "https://t.me/c/1234567890/5"; delete "https://t.me/c/1234567890/6"].
Proof. vm_compute. done. Qed.

(** C8 as stated fails: a notification that does not name its chat (the
    platform names it only for channels) carries deleted ids for which no
    delete is issued, even by a backend that monitors every chat. *)
Lemma delete_without_chat_id_issues_nothing :
  ¬ deletes_every_id (backend true ∅ ∅) (MessageDeleted.mk None [5; 6]).
Proof.
  intros Hall. destruct (Hall 5) as [url Hin]; [simpl; set_solver|].
  apply list_elem_of_In in Hin. vm_compute in Hin. exact Hin.
Qed.

End DeletionExamples.

(** ** Backfill *)

Section Backfill.
Context `{Common}.
Variable env : Environment.
Import Backend.

Lemma bind_returned {S A B} (m : M S A) (k : A → M S B) (s s' : S) (a : A) :
  m s = (Returned a, s') → (m ≫= k) s = k a s'.
Proof. intros Hm. unfold mbind, M_bind, bind. by rewrite Hm. Qed.

Lemma bind_raised {S A B} (m : M S A) (k : A → M S B) (s s' : S) (e : exn) :
  m s = (Raised e, s') → (m ≫= k) s = (Raised e, s').
Proof. intros Hm. unfold mbind, M_bind, bind. by rewrite Hm. Qed.

Lemma for_each_cons_returned {S A} (x : A) (l : list A) (body : A → M S unit)
    (s s1 : S) :
  body x s = (Returned tt, s1) → for_each (x :: l) body s = for_each l body s1.
Proof. intros Hx. simpl. unfold bind. by rewrite Hx. Qed.

(** The loop only buffers: it issues no index call, and when it ends normally
    it returns the records of the messages read, in order. *)
Lemma fetch_loop_effect chat_id share_id cloud call_back skip_indexing skip_existing
    (messages : list TgMessage.t) (msg_list : list IndexMsg.t) (s : Backend.t) :
  let r := fetch_loop env chat_id share_id cloud call_back skip_indexing skip_existing
             messages msg_list s in
  _indexer r.2 = _indexer s
  ∧ match r.1 with
    | Returned l =>
        l = msg_list ++ flat_map (backfill_records chat_id share_id skip_indexing) messages
    | Raised _ => call_back ≠ None
    end.
Proof.
  revert msg_list s. induction messages as [|m messages IH]; intros msg_list s; simpl.
  { by rewrite app_nil_r. }
  assert (Hup : ∃ s1, when cloud (cloud_upload_message env (OfMessage m) skip_existing) s
                      = (Returned tt, s1) ∧ _indexer s1 = _indexer s).
  { destruct cloud; simpl; [|by eauto].
    destruct (cloud_upload_message_effect env (OfMessage m) skip_existing s)
      as (s1 & Hrun & _ & _ & _ & _ & Hi & _). eauto. }
  destruct Hup as (s1 & Hup & Hi1).
  rewrite (bind_returned _ _ _ _ _ Hup).
  unfold backfill_records at 1. cbv zeta.
  set (acc := if truthy _ then msg_list ++ _ else msg_list).
  set (recs := if truthy _ then [_] else []).
  assert (Hacc : acc = msg_list ++ recs).
  { subst acc recs. destruct (truthy _); [done|]. by rewrite app_nil_r. }
  clearbody acc recs. subst acc.
  set (cb := match call_back with Some f => lift (f _) | None => mret tt end).
  assert (Hcb : cb s1 = (Returned tt, s1)
                ∨ (∃ e, cb s1 = (Raised e, s1) ∧ call_back ≠ None)).
  { subst cb. destruct call_back as [f|]; [|by left].
    unfold lift. destruct (f (TgMessage.id m)) as [[]|e]; [left|right]; by eauto. }
  clearbody cb. destruct Hcb as [Hcb|(e & Hcb & Hne)].
  - rewrite (bind_returned _ _ _ _ _ Hcb).
    destruct (IH (msg_list ++ recs) s1) as [Hi Hl]. split; [congruence|].
    destruct (fetch_loop _ _ _ _ _ _ _ _ _ _).1; [|done].
    by rewrite Hl, <- app_assoc.
  - rewrite (bind_raised _ _ _ _ _ Hcb). by split.
Qed.

(** The batch written after the loop. *)
Lemma write_batch_effect (share_id : Z) (msg_list : list IndexMsg.t) (s : Backend.t) :
  let r := for_each msg_list (λ msg,
             issue (writer_add_document msg);;
             modify (λ self, set_newest_msg (<[share_id := msg]> (newest_msg self)) self)) s in
  r.1 = Returned tt ∧ _indexer r.2 = _indexer s ++ map writer_add_document msg_list.
Proof.
  revert s. induction msg_list as [|msg msg_list IH]; intros s.
  { simpl. by rewrite app_nil_r. }
  intros r. subst r.
  rewrite (for_each_cons_returned _ _ _ _
             (set_newest_msg (<[share_id := msg]> (newest_msg s))
                (set_indexer (_indexer s ++ [writer_add_document msg]) s)))
    by reflexivity.
  destruct (IH (set_newest_msg (<[share_id := msg]> (newest_msg s))
                  (set_indexer (_indexer s ++ [writer_add_document msg]) s)))
    as [Hr Hi].
  split; [done|]. rewrite Hi. simpl. by rewrite <- app_assoc.
Qed.

(** C2, as the code has it. Whenever [download_history] raises, and it does
    whenever the message iteration fails, it has issued no call to the index:
    the records buffered so far are dropped with the exception. The buffered
    records are committed, in one batch, only when the iteration reaches the
    end of the range, and then all of them are. *)
Theorem download_history_commit (chat_id min_id max_id : Z) (cloud : bool)
    (call_back : option (Z → outcome unit)) (skip_indexing skip_existing : bool)
    (self : Backend.t) :
  let h := iter_messages env chat_id min_id max_id in
  let r := download_history env chat_id min_id max_id cloud call_back skip_indexing
             skip_existing self in
  let batch := flat_map (backfill_records chat_id (get_share_id chat_id) skip_indexing)
                 (fetched h) in
  match r.1 with
  | Raised _ => _indexer r.2 = _indexer self
  | Returned _ =>
      failure h = None
      ∧ _indexer r.2
        = _indexer self ++ [writer] ++ map writer_add_document batch ++ [writer_commit]
  end
  ∧ match failure h, call_back with
    | Some e, None => r.1 = Raised e
    | Some _, Some _ => is_raised r.1 = true
    | None, None => r.1 = Returned tt
    | None, Some _ => True
    end.
Proof.
  intros h r batch. subst r. unfold download_history. cbv zeta. fold h.
  set (s0 := set_monitored_chats ({[get_share_id chat_id]} ∪ monitored_chats self) self).
  assert (Hmod : modify (λ self, set_monitored_chats
                   ({[get_share_id chat_id]} ∪ monitored_chats self) self) self
                 = (Returned tt, s0)) by done.
  rewrite (bind_returned _ _ _ _ _ Hmod).
  pose proof (fetch_loop_effect chat_id (get_share_id chat_id) cloud call_back
                skip_indexing skip_existing (fetched h) [] s0) as [Hi Hl].
  destruct (fetch_loop _ _ _ _ _ _ _ _ _ _) as [[msg_list|e] s1] eqn:Hloop;
    simpl in Hi, Hl.
  2:{ rewrite (bind_raised _ _ _ _ _ Hloop). simpl. split; [done|].
      destruct (failure h), call_back; done. }
  rewrite (bind_returned _ _ _ _ _ Hloop). fold batch in Hl. subst msg_list.
  destruct (failure h) as [e|] eqn:Hfail.
  { unfold mbind, M_bind, bind, raise. simpl. split; [done|]. by destruct call_back. }
  rewrite (bind_returned _ _ s1 s1 tt) by reflexivity.
  rewrite (bind_returned _ _ s1 (set_indexer (_indexer s1 ++ [writer]) s1) tt)
    by reflexivity.
  pose proof (write_batch_effect (get_share_id chat_id) batch
                (set_indexer (_indexer s1 ++ [writer]) s1)) as [Hr Hw].
  destruct (for_each batch _ (set_indexer (_indexer s1 ++ [writer]) s1))
    as [o s3] eqn:Hfe.
  simpl in Hr, Hw. subst o.
  rewrite (bind_returned _ _ _ _ _ Hfe).
  unfold issue, modify. simpl. rewrite Hw, Hi.
  split; [|by destruct call_back].
  split; [done|]. by rewrite <- !app_assoc.
Qed.

End Backfill.

Section BackfillExamples.
Import Backend Sample.

(** Every record buffered by a backfill that indexes holds the flag
    [not skip_indexing] as its content, and the chat id as it was passed. *)
Lemma backfill_records_content `{Common} (chat_id share_id : Z) (m : TgMessage.t)
    (r : IndexMsg.t) :
  r ∈ backfill_records chat_id share_id false m →
  IndexMsg.content r = PyBool true ∧ IndexMsg.chat_id r = chat_id
  ∧ IndexMsg.url r = message_url share_id (TgMessage.id m).
Proof.
  unfold backfill_records, py_and. cbv zeta. simpl negb.
  destruct (truthy (PyStr _)) eqn:Ht.
  - cbn [truthy]. intros ->%list_elem_of_singleton. done.
  - rewrite Ht. by intros ?%elem_of_nil.
Qed.

(** C1, on the code. The backfill of a channel given by its raw id, over a
    history of one message with the text "hello", run with indexing on, buffers
    and commits one record. Its url is made of the canonical chat id and the
    message id, but its content is the boolean [True], the value of
    [text and not skip_indexing], not the extracted text "hello", and its
    chat id is the raw id that was passed, not the canonical one. *)
Theorem download_history_buffers_flag_and_raw_id :
  let m := text_message raw_channel 7 "hello" in
  let h := {| fetched := [m]; failure := None |} in
  let r := download_history (platform h) raw_channel 1 1073741824 false None false true
             (backend false ∅ ∅) in
  _extract_text (TgMessage.raw_text m) = "hello"
  ∧ get_share_id raw_channel = channel
  ∧ r.1 = Returned tt
  ∧ _indexer r.2
    = [ writer;
        writer_add_document
          (IndexMsg.mk (PyBool true) "https://t.me/c/1234567890/7" raw_channel
             1700000007 "Alice");
        writer_commit ].
Proof. vm_compute. done. Qed.

(** C2 as stated fails: the platform yields one text message and then raises;
    the record of that message was buffered, the run ends with the platform's
    error, and nothing has been committed. *)
Lemma failed_backfill_commits_nothing :
  let h := {| fetched := [text_message channel 7 "hello"];
              failure := Some (ExternalError "FloodWaitError") |} in
  ¬ partial_backfill_committed (platform h) channel 1 1073741824 false None false true
      (backend false ∅ ∅).
Proof.
  intros h Hclaim. unfold partial_backfill_committed in Hclaim.
  specialize (Hclaim ltac:(done)). vm_compute in Hclaim. discriminate Hclaim.
Qed.

Example failed_backfill_run :
  let h := {| fetched := [text_message channel 7 "hello"];
              failure := Some (ExternalError "FloodWaitError") |} in
  let r := download_history (platform h) channel 1 1073741824 false None false true
             (backend false ∅ ∅) in
  r.1 = Raised (ExternalError "FloodWaitError") ∧ _indexer r.2 = []
  ∧ bool_decide (channel ∈ monitored_chats r.2) = true.
Proof. vm_compute. done. Qed.

End BackfillExamples.

(** ** Clearing chats *)

Section Clearing.
Import Backend Sample.

(** Clearing one chat that is not monitored raises [KeyError], after the
    index deletion has been issued. *)
Lemma clear_absent_raises (chat_id : Z) (self : Backend.t) :
  chat_id ∉ monitored_chats self →
  clear (Some [chat_id]) self
  = (Raised (KeyError chat_id),
     set_indexer (_indexer self ++ [writer; writer_delete_by_term "chat_id" (pretty chat_id);
                                    writer_commit]) self).
Proof.
  intros Habs. unfold clear. simpl.
  unfold mbind, M_bind, bind, issue, modify, gets, lift, set_remove, ret. simpl.
  rewrite bool_decide_eq_false_2 by done.
  unfold set_indexer. simpl. by rewrite <- !app_assoc.
Qed.

(** C9, on the code. Clearing a chat that is not in the monitored set raises
    [KeyError] instead of doing nothing: so does clearing the same chat a
    second time; and in a list of chats the first absent one stops the
    removal, so that a later chat of the list stays monitored although its
    index entries have been deleted. *)
Theorem clear_absent_chat_raises_KeyError :
  let empty := backend false ∅ ∅ in
  let once := clear (Some [7]) (backend false {[ 7 ]} ∅) in
  let listed := clear (Some [42; 7]) (backend false {[ 7 ]} ∅) in
  (clear (Some [42]) empty).1 = Raised (KeyError 42)
  ∧ once.1 = Returned tt
  ∧ (clear (Some [7]) once.2).1 = Raised (KeyError 7)
  ∧ listed.1 = Raised (KeyError 42)
  ∧ bool_decide (7 ∈ monitored_chats listed.2) = true
  ∧ _indexer listed.2
    = [ writer; writer_delete_by_term "chat_id" "42"; writer_commit;
        writer; writer_delete_by_term "chat_id" "7"; writer_commit ].
Proof. vm_compute. done. Qed.

End Clearing.

(** * Further properties *)

(** ** The structured store, beyond duplicates *)

Section StoreFacts.
Import Aws.

(** X1. [put_item_to_dynamo] ends in one of four ways, and whenever it raises
    the table is as it was: [ValueError] for no item; [RuntimeError] around
    the store's validation error for an item without a numeric [chatId] and
    [timestamp]; [RuntimeError] around the failed condition when the key is
    taken; and a normal return, with the item stored, when the key is free. *)
Theorem put_item_to_dynamo_outcomes (it : option item) (tbl : table) :
  table_wf tbl →
  put_item_to_dynamo it tbl =
    match it with
    | None => (Raised (ValueError "Item cannot be None"), tbl)
    | Some Item =>
        match primary_key Item with
        | None =>
            (Raised (RuntimeError "Failed to put item to DynamoDB" ValidationException), tbl)
        | Some k =>
            match tbl !! k with
            | Some _ => (Raised duplicate_record_error, tbl)
            | None => (Returned tt, <[k := Item]> tbl)
            end
        end
    end.
Proof.
  intros Hwf. destruct it as [Item|]; [|done].
  destruct (primary_key Item) as [k|] eqn:Hk.
  - destruct (tbl !! k) as [row|] eqn:Hrow.
    + by eapply put_item_to_dynamo_existing.
    + by apply put_item_to_dynamo_fresh.
  - unfold put_item_to_dynamo, try_except, put_item. by rewrite Hk.
Qed.

Lemma put_item_to_dynamo_outcomes_witness :
  table_wf ∅
  ∧ put_item_to_dynamo (Some {[ "chatId" := AttrS "7"; "timestamp" := AttrN 1 ]}) ∅
    = (Raised (RuntimeError "Failed to put item to DynamoDB" ValidationException), ∅).
Proof.
  assert (Hwf : table_wf ∅) by (intros k it Hlook; by rewrite lookup_empty in Hlook).
  split; [done|].
  exact (put_item_to_dynamo_outcomes
           (Some {[ "chatId" := AttrS "7"; "timestamp" := AttrN 1 ]}) ∅ Hwf).
Defined.

Lemma put_all_cons (it : item) (its : list item) (tbl : table) :
  put_all (it :: its) tbl = put_all its (put_item_to_dynamo (Some it) tbl).2.
Proof. reflexivity. Qed.

Lemma put_all_wf (its : list item) (tbl : table) :
  table_wf tbl → table_wf (put_all its tbl).
Proof.
  revert tbl. induction its as [|it its IH]; intros tbl Hwf; [done|].
  rewrite put_all_cons. apply IH. by apply put_item_to_dynamo_wf.
Qed.

Lemma put_item_to_dynamo_table (it : item) (tbl : table) :
  table_wf tbl →
  (put_item_to_dynamo (Some it) tbl).2 =
    match primary_key it with
    | Some k => match tbl !! k with Some _ => tbl | None => <[k := it]> tbl end
    | None => tbl
    end.
Proof.
  intros Hwf. destruct (primary_key it) as [k|] eqn:Hk.
  - destruct (tbl !! k) as [row|] eqn:Hrow.
    + by rewrite (put_item_to_dynamo_existing tbl it row k).
    + by rewrite (put_item_to_dynamo_fresh tbl it k).
  - unfold put_item_to_dynamo, try_except, put_item. by rewrite Hk.
Qed.

Lemma put_all_lookup (its : list item) (tbl : table) (k : list Z) :
  table_wf tbl →
  put_all its tbl !! k =
    match tbl !! k with
    | Some row => Some row
    | None => first_with_key k its
    end.
Proof.
  revert tbl. induction its as [|it its IH]; intros tbl Hwf.
  { simpl. by destruct (tbl !! k). }
  rewrite put_all_cons.
  rewrite IH by (by apply put_item_to_dynamo_wf).
  rewrite put_item_to_dynamo_table by done.
  unfold first_with_key. rewrite filter_cons.
  destruct (primary_key it) as [k'|] eqn:Hk'.
  - destruct (decide (k' = k)) as [->|Hne].
    + rewrite decide_True by done.
      destruct (tbl !! k) as [row|] eqn:Hrow.
      * by rewrite Hrow.
      * by rewrite lookup_insert_eq.
    + rewrite decide_False by congruence.
      destruct (tbl !! k') as [row|]; [done|].
      by rewrite lookup_insert_ne.
  - rewrite decide_False by congruence. done.
Qed.

(** X2. Starting from the empty table, after any run of writes the table holds
    its invariant (every row carries the key it is stored under) and the row
    under a key is the first item of the run that had that key: the first
    write wins, later ones with the same key never replace it. *)
Theorem put_all_first_write_wins (its : list item) (k : list Z) :
  table_wf (put_all its ∅)
  ∧ put_all its ∅ !! k = first_with_key k its.
Proof.
  assert (Hwf : table_wf ∅) by (intros k' it Hlook; by rewrite lookup_empty in Hlook).
  split; [by apply put_all_wf|].
  rewrite put_all_lookup by done. by rewrite lookup_empty.
Qed.

(** X3. The record of a message always has a primary key, made of its chat id
    and its timestamp; the message id is no part of it. So writing the record
    of a message is refused exactly when some record of the same chat and the
    same timestamp is stored, whatever the message ids, and is stored
    otherwise. *)
Theorem message_record_key (m : TelegramMessage.t) (tbl : table) :
  table_wf tbl →
  put_item_to_dynamo (Some (TelegramMessage.dict m)) tbl =
    match tbl !! [TelegramMessage.chat_id m; TelegramMessage.timestamp m] with
    | Some _ => (Raised duplicate_record_error, tbl)
    | None =>
        (Returned tt,
         <[ [TelegramMessage.chat_id m; TelegramMessage.timestamp m]
            := TelegramMessage.dict m ]> tbl)
    end.
Proof.
  intros Hwf.
  destruct (tbl !! [TelegramMessage.chat_id m; TelegramMessage.timestamp m])
    as [row|] eqn:Hrow.
  - eapply put_item_to_dynamo_existing; [done|apply dict_primary_key|done].
  - apply put_item_to_dynamo_fresh; [apply dict_primary_key|done].
Qed.

(** Two messages of one chat sent in the same second: the second record is
    refused although its message id is new. *)
Lemma message_record_key_witness :
  let user := TelegramUser.mk 0 None None None false in
  let m1 := TelegramMessage.mk 7 1 1700000000 user (Some "a") None None (Some false) None in
  let m2 := TelegramMessage.mk 7 2 1700000000 user (Some "b") None None (Some false) None in
  let tbl : table := {[ [7; 1700000000] := TelegramMessage.dict m1 ]} in
  table_wf tbl
  ∧ put_item_to_dynamo (Some (TelegramMessage.dict m2)) tbl =
      match tbl !! [TelegramMessage.chat_id m2; TelegramMessage.timestamp m2] with
      | Some _ => (Raised duplicate_record_error, tbl)
      | None =>
          (Returned tt,
           <[ [TelegramMessage.chat_id m2; TelegramMessage.timestamp m2]
              := TelegramMessage.dict m2 ]> tbl)
      end.
Proof.
  intros user m1 m2 tbl.
  assert (Hwf : table_wf tbl).
  { intros k it Hlook. subst tbl.
    apply lookup_singleton_Some in Hlook as [<- <-]. apply dict_primary_key. }
  split; [done|]. exact (message_record_key m2 tbl Hwf).
Defined.

Example second_message_of_the_second_is_refused :
  let user := TelegramUser.mk 0 None None None false in
  let m1 := TelegramMessage.mk 7 1 1700000000 user (Some "a") None None (Some false) None in
  let m2 := TelegramMessage.mk 7 2 1700000000 user (Some "b") None None (Some false) None in
  let first := put_item_to_dynamo (Some (TelegramMessage.dict m1)) ∅ in
  first.1 = Returned tt
  ∧ (put_item_to_dynamo (Some (TelegramMessage.dict m2)) first.2).1
    = Raised duplicate_record_error.
Proof. vm_compute. done. Qed.

(** ** The object store *)

(** X4. [upload_to_s3] of a file object: when the transfer succeeds the bytes
    are stored under [s3_prefix/file_name], every other object, the rows and
    the configuration are as before, and the call returns that key prefixed
    with the bucket name; a later upload to the same key replaces the object
    without any error. When the transfer fails the call raises [RuntimeError]
    around the failure and the client is as it was. *)
Theorem upload_to_s3_effect (transfer : string → outcome unit)
    (bytes bytes' s3_prefix file_name : string) (c : AWSClient) :
  let key := s3_prefix +:+ "/" +:+ file_name in
  let r := upload_to_s3 transfer bytes s3_prefix file_name c in
  let again := upload_to_s3 transfer bytes' s3_prefix file_name r.2 in
  match transfer key with
  | Returned _ =>
      r.1 = Returned (py_str (s3_bucket_name (_cfg c)) +:+ "/" +:+ key)
      ∧ bucket r.2 = <[key := bytes]> (bucket c)
      ∧ rows r.2 = rows c ∧ _cfg r.2 = _cfg c
      ∧ again.1 = r.1
      ∧ bucket again.2 = <[key := bytes']> (bucket c)
  | Raised e => r = (Raised (RuntimeError "Failed to upload file to S3" e), c)
  end.
Proof.
  intros key r again. subst r again.
  unfold upload_to_s3, try_except, mbind, M_bind, bind, lift, modify, gets, mret,
    M_ret, ret. fold key.
  destruct (transfer key) as [[]|e]; simpl; [|done].
  repeat split. by rewrite insert_insert_eq.
Qed.

End StoreFacts.

(** ** Backfill, beyond the commit *)

Section BackfillFacts.
Context `{Common}.
Variable env : Environment.
Import Backend.

(** The loop of [download_history], in full: its outcome, what it leaves
    alone, and the archival calls it makes. *)
Lemma fetch_loop_run chat_id share_id cloud call_back skip_indexing skip_existing
    (messages : list TgMessage.t) (msg_list : list IndexMsg.t) (s : Backend.t) :
  let r := fetch_loop env chat_id share_id cloud call_back skip_indexing skip_existing
             messages msg_list s in
  r.1 = match (callback_run call_back messages).2 with
        | Some e => Raised e
        | None => Returned (msg_list ++
                    flat_map (backfill_records chat_id share_id skip_indexing) messages)
        end
  ∧ index_view r.2 = index_view s
  ∧ uploads r.2 = uploads s ++
      (if cloud
       then map (λ m, (OfMessage m, skip_existing)) (callback_run call_back messages).1
       else []).
Proof.
  revert msg_list s. induction messages as [|m messages IH]; intros msg_list s.
  { simpl. destruct cloud; by rewrite !app_nil_r. }
  cbn [fetch_loop callback_run flat_map].
  assert (Hup : ∃ s1, when cloud (cloud_upload_message env (OfMessage m) skip_existing) s
                      = (Returned tt, s1) ∧ index_view s1 = index_view s
                      ∧ uploads s1 = uploads s ++
                          (if cloud then [(OfMessage m, skip_existing)] else [])).
  { destruct cloud; simpl; [|exists s; by rewrite app_nil_r].
    destruct (cloud_upload_message_effect env (OfMessage m) skip_existing s)
      as (s1 & Hrun & Hc & Hm & He & Hn & Hi & Hu).
    exists s1. unfold index_view. by rewrite Hc, Hm, He, Hn, Hi. }
  destruct Hup as (s1 & Hup & Hv1 & Hu1).
  rewrite (bind_returned _ _ _ _ _ Hup).
  unfold backfill_records at 1. cbv zeta.
  set (acc := if truthy _ then msg_list ++ _ else msg_list).
  set (recs := if truthy _ then [_] else []).
  assert (Hacc : acc = msg_list ++ recs).
  { subst acc recs. destruct (truthy _); [done|]. by rewrite app_nil_r. }
  clearbody acc recs. subst acc.
  set (cb := match call_back with Some f => lift (f _) | None => mret tt end).
  assert (Hcb : cb s1 = (from_option (λ f, f (TgMessage.id m)) (Returned tt) call_back, s1)).
  { subst cb. by destruct call_back. }
  clearbody cb.
  destruct (from_option _ _ call_back) as [[]|e].
  - rewrite (bind_returned _ _ _ _ _ Hcb).
    destruct (IH (msg_list ++ recs) s1) as (Ho & Hv & Hu).
    destruct (callback_run call_back messages) as [done stopped]. simpl in *.
    rewrite Ho, Hv, Hu, Hv1, Hu1. split_and!; [|done|].
    + destruct stopped; [done|]. by rewrite <- app_assoc.
    + rewrite <- app_assoc. by destruct cloud.
  - rewrite (bind_raised _ _ _ _ _ Hcb). simpl. by destruct cloud.
Qed.

(** The batch written after the loop, in full. *)
Lemma write_batch_run (share_id : Z) (msg_list : list IndexMsg.t) (s : Backend.t) :
  let r := for_each msg_list (λ msg,
             issue (writer_add_document msg);;
             modify (λ self, set_newest_msg (<[share_id := msg]> (newest_msg self)) self)) s in
  r.1 = Returned tt
  ∧ (_cfg r.2 = _cfg s ∧ monitored_chats r.2 = monitored_chats s
     ∧ excluded_chats r.2 = excluded_chats s ∧ uploads r.2 = uploads s)
  ∧ newest_msg r.2 =
      match last msg_list with
      | Some msg => <[share_id := msg]> (newest_msg s)
      | None => newest_msg s
      end
  ∧ _indexer r.2 = _indexer s ++ map writer_add_document msg_list.
Proof.
  revert s. induction msg_list as [|msg msg_list IH]; intros s.
  { simpl. by rewrite app_nil_r. }
  intros r. subst r.
  rewrite (for_each_cons_returned _ _ _ _
             (set_newest_msg (<[share_id := msg]> (newest_msg s))
                (set_indexer (_indexer s ++ [writer_add_document msg]) s)))
    by reflexivity.
  destruct (IH (set_newest_msg (<[share_id := msg]> (newest_msg s))
                  (set_indexer (_indexer s ++ [writer_add_document msg]) s)))
    as (Hr & Hf & Hn & Hi).
  split; [done|]. split; [done|]. rewrite Hn, Hi. simpl. split.
  - destruct msg_list as [|msg' msg_list]; [done|].
    rewrite last_cons_cons. destruct (last (msg' :: msg_list)) eqn:Hlast.
    + by rewrite insert_insert_eq.
    + by apply last_None in Hlast.
  - by rewrite <- app_assoc.
Qed.

(** [download_history], in full. *)
Lemma download_history_run (chat_id min_id max_id : Z) (cloud : bool)
    (call_back : option (Z → outcome unit)) (skip_indexing skip_existing : bool)
    (s : Backend.t) :
  let h := iter_messages env chat_id min_id max_id in
  let share_id := get_share_id chat_id in
  let r := download_history env chat_id min_id max_id cloud call_back skip_indexing
             skip_existing s in
  let batch := flat_map (backfill_records chat_id share_id skip_indexing) (fetched h) in
  let stopped :=
    match (callback_run call_back (fetched h)).2 with
    | Some e => Some e
    | None => failure h
    end in
  r.1 = from_option Raised (Returned tt) stopped
  ∧ _cfg r.2 = _cfg s
  ∧ monitored_chats r.2 = {[share_id]} ∪ monitored_chats s
  ∧ excluded_chats r.2 = excluded_chats s
  ∧ newest_msg r.2 =
      match stopped, last batch with
      | None, Some msg => <[share_id := msg]> (newest_msg s)
      | _, _ => newest_msg s
      end
  ∧ _indexer r.2 = _indexer s ++
      match stopped with
      | None => [writer] ++ map writer_add_document batch ++ [writer_commit]
      | Some _ => []
      end
  ∧ uploads r.2 = uploads s ++
      (if cloud
       then map (λ m, (OfMessage m, skip_existing)) (callback_run call_back (fetched h)).1
       else []).
Proof.
  intros h share_id r batch stopped. subst r. unfold download_history. cbv zeta.
  fold h share_id.
  set (s0 := set_monitored_chats ({[share_id]} ∪ monitored_chats s) s).
  assert (Hmod : modify (λ self, set_monitored_chats
                   ({[share_id]} ∪ monitored_chats self) self) s
                 = (Returned tt, s0)) by done.
  rewrite (bind_returned _ _ _ _ _ Hmod).
  pose proof (fetch_loop_run chat_id share_id cloud call_back
                skip_indexing skip_existing (fetched h) [] s0) as (Ho & Hv & Hu).
  destruct (fetch_loop _ _ _ _ _ _ _ _ _ _) as [o s1] eqn:Hloop.
  simpl in Ho, Hv, Hu. fold batch in Ho.
  unfold index_view in Hv. injection Hv as Hc Hm He Hn Hi.
  subst stopped. destruct (callback_run call_back (fetched h)) as [done cbfail].
  simpl in *. destruct cbfail as [e|]; subst o.
  { rewrite (bind_raised _ _ _ _ _ Hloop). simpl.
    rewrite Hc, Hm, He, Hn, Hi, Hu, app_nil_r. done. }
  rewrite (bind_returned _ _ _ _ _ Hloop).
  destruct (failure h) as [e|] eqn:Hfail.
  { unfold mbind, M_bind, bind, raise. simpl.
    rewrite Hc, Hm, He, Hn, Hi, Hu, app_nil_r. done. }
  rewrite (bind_returned _ _ s1 s1 tt) by reflexivity.
  rewrite (bind_returned _ _ s1 (set_indexer (_indexer s1 ++ [writer]) s1) tt)
    by reflexivity.
  pose proof (write_batch_run share_id batch
                (set_indexer (_indexer s1 ++ [writer]) s1)) as (Hr & Hw1 & Hw2 & Hw3).
  destruct (for_each batch _ (set_indexer (_indexer s1 ++ [writer]) s1))
    as [o s3] eqn:Hfe.
  simpl in Hr, Hw1, Hw2, Hw3. subst o.
  rewrite (bind_returned _ _ _ _ _ Hfe).
  unfold issue, modify. simpl.
  destruct Hw1 as (Hc3 & Hm3 & He3 & Hu3).
  rewrite Hc3, Hm3, He3, Hu3, Hw2, Hw3, Hc, Hm, He, Hn, Hi, Hu.
  split_and!; try done. by rewrite <- !app_assoc.
Qed.

(** X5. Whatever its outcome, [download_history] adds the canonical id of the
    chat to the monitored set and removes nothing from it, and leaves the
    excluded set alone: also a backfill that fails, or that indexes nothing,
    makes later live messages of the chat pass the gate of a backend that does
    not monitor all chats. *)
Theorem download_history_monitors (chat_id min_id max_id : Z) (cloud : bool)
    (call_back : option (Z → outcome unit)) (skip_indexing skip_existing : bool)
    (self : Backend.t) :
  let r := download_history env chat_id min_id max_id cloud call_back skip_indexing
             skip_existing self in
  monitored_chats r.2 = {[get_share_id chat_id]} ∪ monitored_chats self
  ∧ excluded_chats r.2 = excluded_chats self
  ∧ _should_monitor r.2 chat_id
    = (if monitor_all (_cfg self) then _should_monitor self chat_id else true).
Proof.
  intros r.
  pose proof (download_history_run chat_id min_id max_id cloud call_back skip_indexing
                skip_existing self) as Hrun.
  cbv zeta in Hrun. fold r in Hrun. destruct Hrun as (_ & Hc & Hm & He & _).
  split; [done|]. split; [done|].
  unfold _should_monitor. rewrite Hc, Hm, He.
  destruct (monitor_all (_cfg self)); [done|].
  apply bool_decide_eq_true, elem_of_union. left. by apply elem_of_singleton.
Qed.

(** X6. [newest_msg] after a backfill: when the run ends normally and has
    buffered records, the entry of the chat's canonical id is the record of the
    last message the platform yielded, and no other entry changes; when the run
    raises, or buffers nothing, [newest_msg] is as it was. *)
Theorem download_history_newest_msg (chat_id min_id max_id : Z) (cloud : bool)
    (call_back : option (Z → outcome unit)) (skip_indexing skip_existing : bool)
    (self : Backend.t) :
  let h := iter_messages env chat_id min_id max_id in
  let r := download_history env chat_id min_id max_id cloud call_back skip_indexing
             skip_existing self in
  let batch := flat_map (backfill_records chat_id (get_share_id chat_id) skip_indexing)
                 (fetched h) in
  newest_msg r.2 =
    match r.1, last batch with
    | Returned _, Some msg => <[get_share_id chat_id := msg]> (newest_msg self)
    | _, _ => newest_msg self
    end.
Proof.
  intros h r batch.
  pose proof (download_history_run chat_id min_id max_id cloud call_back skip_indexing
                skip_existing self) as Hrun.
  cbv zeta in Hrun. fold h in Hrun. fold r batch in Hrun.
  destruct Hrun as (Ho & _ & _ & _ & Hn & _). rewrite Hn, Ho.
  by destruct (callback_run call_back (fetched h)).2, (failure h).
Qed.

Lemma backfill_records_skip_indexing (chat_id share_id : Z) (messages : list TgMessage.t) :
  flat_map (backfill_records chat_id share_id true) messages = [].
Proof.
  induction messages as [|m messages IH]; [done|]. simpl. rewrite IH.
  unfold backfill_records, py_and. cbv zeta. simpl negb.
  destruct (truthy (PyStr _)) eqn:Ht; [done|]. by rewrite Ht.
Qed.

(** X7. A backfill with [skip_indexing] hands no record to the index: when it
    ends normally it has opened a writer and committed it empty, when it raises
    it has issued no index call, and in both cases [newest_msg] is as it was. *)
Theorem download_history_skip_indexing (chat_id min_id max_id : Z) (cloud : bool)
    (call_back : option (Z → outcome unit)) (skip_existing : bool) (self : Backend.t) :
  let r := download_history env chat_id min_id max_id cloud call_back true
             skip_existing self in
  _indexer r.2 = _indexer self ++
    (if is_raised r.1 then [] else [writer; writer_commit])
  ∧ newest_msg r.2 = newest_msg self.
Proof.
  intros r.
  pose proof (download_history_run chat_id min_id max_id cloud call_back true
                skip_existing self) as Hrun.
  cbv zeta in Hrun. fold r in Hrun. destruct Hrun as (Ho & _ & _ & _ & Hn & Hi & _).
  rewrite backfill_records_skip_indexing in Hn, Hi.
  rewrite Hi, Hn, Ho.
  set (h := iter_messages env chat_id min_id max_id).
  by destruct (callback_run call_back (fetched h)).2, (failure h).
Qed.

(** X8. With [cloud] on, [download_history] calls [cloud_upload_message] once
    for each message it gets through, in the order the platform yields them and
    with the [skip_existing] it was given; with [cloud] off it never calls it.
    The first message on which the progress callback raises is the last one it
    gets through: the run ends with the callback's exception, before any
    failure of the platform's iteration and instead of a normal return. *)
Theorem download_history_uploads (chat_id min_id max_id : Z) (cloud : bool)
    (call_back : option (Z → outcome unit)) (skip_indexing skip_existing : bool)
    (self : Backend.t) :
  let h := iter_messages env chat_id min_id max_id in
  let r := download_history env chat_id min_id max_id cloud call_back skip_indexing
             skip_existing self in
  let '(done, stopped) := callback_run call_back (fetched h) in
  uploads r.2 = uploads self ++
    (if cloud then map (λ m, (OfMessage m, skip_existing)) done else [])
  ∧ r.1 = match stopped, failure h with
          | Some e, _ => Raised e
          | None, Some e => Raised e
          | None, None => Returned tt
          end.
Proof.
  intros h r.
  pose proof (download_history_run chat_id min_id max_id cloud call_back skip_indexing
                skip_existing self) as Hrun.
  cbv zeta in Hrun. fold h in Hrun. fold r in Hrun.
  destruct Hrun as (Ho & _ & _ & _ & _ & _ & Hu).
  destruct (callback_run call_back (fetched h)) as [done stopped]. simpl in *.
  split; [done|]. rewrite Ho. by destruct stopped, (failure h).
Qed.

Lemma callback_run_without_callback (messages : list TgMessage.t) :
  callback_run None messages = (messages, None).
Proof. induction messages as [|m messages IH]; [done|]. simpl. by rewrite IH. Qed.

End BackfillFacts.

(** ** What archival writes *)

Section ArchivalRows.
Context `{Common}.
Variable env : Environment.
Import Backend.

Lemma keeps_ret {A} (a : A) : keeps_rows (mret a).
Proof. done. Qed.

Lemma keeps_raise {A} (e : exn) : keeps_rows (raise e : M Backend.t A).
Proof. done. Qed.

Lemma keeps_lift {A} (o : outcome A) : keeps_rows (lift o).
Proof. done. Qed.

Lemma keeps_log (r : log_record) : keeps_rows (log r).
Proof. done. Qed.

Lemma keeps_bind {A B} (m : M Backend.t A) (k : A → M Backend.t B) :
  keeps_rows m → (∀ a, keeps_rows (k a)) → keeps_rows (m ≫= k).
Proof.
  intros Hm Hk s. unfold mbind, M_bind, bind.
  specialize (Hm s). destruct (m s) as [[a|e] s']; simpl in *; [|done].
  by rewrite Hk.
Qed.

Lemma keeps_with_client_gets {A} (f : Aws.AWSClient → A) : keeps_rows (with_client (gets f)).
Proof.
  intros s. unfold with_client, rows_of, gets.
  destruct (_cloud_client s) as [c|] eqn:Hc; simpl; by rewrite ?Hc.
Qed.

Lemma keeps_with_client_upload (transfer : string → outcome unit)
    (bytes s3_prefix file_name : string) :
  keeps_rows (with_client (Aws.upload_to_s3 transfer bytes s3_prefix file_name)).
Proof.
  intros s. unfold with_client, rows_of.
  destruct (_cloud_client s) as [c|] eqn:Hc; simpl; [|by rewrite Hc].
  unfold Aws.upload_to_s3, try_except, mbind, M_bind, bind, lift, modify, gets.
  by destruct (transfer _) as [[]|e].
Qed.

Ltac keeps_step :=
  lazymatch goal with
  | |- keeps_rows (_ ≫= _) => apply keeps_bind; [|intros]
  | |- keeps_rows (mret _) => apply keeps_ret
  | |- keeps_rows (lift _) => apply keeps_lift
  | |- keeps_rows (log _) => apply keeps_log
  | |- keeps_rows (with_client (gets _)) => apply keeps_with_client_gets
  | |- keeps_rows (with_client (Aws.upload_to_s3 _ _ _ _)) => apply keeps_with_client_upload
  | |- keeps_rows (raise _) => apply keeps_raise
  | |- keeps_rows (match ?x with _ => _ end) => destruct x
  end.

Lemma keeps_upload_media message chat_id message_id timestamp m :
  keeps_rows (upload_media env message chat_id message_id timestamp m).
Proof. unfold upload_media. repeat keeps_step. Qed.

Lemma post_of_keeps {A} T Q (m : M Backend.t A) : keeps_rows m → rows_post T Q m.
Proof. intros Hm s Hs. left. by rewrite Hm. Qed.

Lemma post_bind {A B} T Q (m : M Backend.t A) (k : A → M Backend.t B) :
  keeps_rows m → (∀ a, rows_post T Q (k a)) → rows_post T Q (m ≫= k).
Proof.
  intros Hm Hk s Hs. unfold mbind, M_bind, bind.
  specialize (Hm s). destruct (m s) as [[a|e] s']; simpl in *.
  - apply Hk. by rewrite Hm.
  - left. by rewrite Hm.
Qed.

Lemma post_try_except {A} T Q (body : M Backend.t A) (handler : exn → M Backend.t A) :
  rows_post T Q body → (∀ e, keeps_rows (handler e)) → rows_post T Q (try_except body handler).
Proof.
  intros Hb Hh s Hs. unfold try_except.
  specialize (Hb s Hs). destruct (body s) as [[a|e] s']; [exact Hb|].
  cbn [snd] in *. destruct Hb as [Hb|(T' & Hb & HQ)].
  - left. by rewrite Hh.
  - right. exists T'. by rewrite Hh.
Qed.

Lemma post_put_message T c i ts u txt med r f ff :
  Aws.table_wf T →
  rows_post T (archived_as T c i ts)
    (with_client (Aws.client_put_item
       (Some (TelegramMessage.dict (TelegramMessage.mk c i ts u txt med r f ff))))).
Proof.
  intros Hwf s Hs. unfold with_client, rows_of in *.
  destruct (_cloud_client s) as [cl|]; [|done]. simpl in Hs. injection Hs as Hs.
  unfold Aws.client_put_item, zoom. rewrite Hs.
  set (tm := TelegramMessage.mk c i ts u txt med r f ff).
  destruct (T !! [c; ts]) as [row|] eqn:Hrow.
  - rewrite (put_item_to_dynamo_existing T _ row [c; ts]) by done. simpl. by left.
  - rewrite (put_item_to_dynamo_fresh T _ [c; ts]) by done. simpl. right.
    eexists. split; [done|]. by exists tm.
Qed.

Lemma post_upload_body T (event : uploadable) (skip_existing : bool) :
  Aws.table_wf T →
  rows_post T
    (archived_as T (get_share_id (uploaded_chat_id event))
       (TgMessage.id (uploaded_message event)) (TgMessage.date (uploaded_message event)))
    (upload_body env event skip_existing).
Proof.
  intros Hwf. unfold upload_body. cbv zeta.
  fold (uploaded_message event) (uploaded_chat_id event).
  apply post_bind; [apply keeps_with_client_gets|intros client].
  apply post_bind; [apply keeps_lift|intros exist].
  destruct (exist && skip_existing); [apply post_of_keeps, keeps_log|].
  apply post_bind; [apply keeps_lift|intros telegram_user].
  apply post_bind; [repeat keeps_step|intros [is_forward fwd_from]].
  apply post_bind; [repeat first [apply keeps_upload_media | keeps_step]|intros media].
  by apply post_put_message.
Qed.

(** X10. Run on a backend with a cloud client whose rows carry their keys,
    [cloud_upload_message] leaves the client in place and either leaves the
    rows exactly as they are, or adds one row: the record of a message with the
    canonical chat id, the id and the date of the uploaded message, stored
    under the key made of the canonical chat id and the date, which was free.
    It never changes or removes a stored row, whatever [skip_existing] is. *)
Theorem cloud_upload_message_rows (event : uploadable) (skip_existing : bool)
    (self : Backend.t) (T : Aws.table) :
  rows_of self = Some T → Aws.table_wf T →
  let after := (cloud_upload_message env event skip_existing self).2 in
  rows_of after = Some T
  ∨ ∃ T', rows_of after = Some T'
          ∧ archived_as T (get_share_id (uploaded_chat_id event))
              (TgMessage.id (uploaded_message event))
              (TgMessage.date (uploaded_message event)) T'.
Proof.
  intros Hrows Hwf after. subst after.
  assert (Hpost : rows_post T
            (archived_as T (get_share_id (uploaded_chat_id event))
               (TgMessage.id (uploaded_message event))
               (TgMessage.date (uploaded_message event)))
            (cloud_upload_message env event skip_existing)).
  { unfold cloud_upload_message.
    apply post_bind; [done|intros _].
    apply post_bind; [done|intros s0].
    destruct (_cloud_client s0); [|apply post_of_keeps, keeps_log].
    apply post_try_except; [by apply post_upload_body|intros e; apply keeps_log]. }
  by apply Hpost.
Qed.



End ArchivalRows.

Section ArchivalRowsExamples.
Import Backend Sample.


Lemma cloud_upload_message_rows_witness :
  let event := OfMessage (text_message raw_channel 7 "hello") in
  let after := (cloud_upload_message working_platform event true cloud_backend).2 in
  (rows_of cloud_backend = Some ∅ ∧ Aws.table_wf ∅)
  ∧ (rows_of after = Some ∅
     ∨ ∃ T', rows_of after = Some T'
             ∧ archived_as ∅ (get_share_id (uploaded_chat_id event))
                 (TgMessage.id (uploaded_message event))
                 (TgMessage.date (uploaded_message event)) T').
Proof.
  intros event after.
  assert (Hwf : Aws.table_wf ∅) by (intros k it Hlook; by rewrite lookup_empty in Hlook).
  split; [by split|].
  exact (cloud_upload_message_rows working_platform event true cloud_backend ∅
           eq_refl Hwf).
Defined.


End ArchivalRowsExamples.

(** ** Edits *)

Section Edits.
Context `{Common}.
Variable env : Environment.
Import Backend.


End Edits.

(** ** Clearing, configuration and text extraction *)

Section BackendFacts.
Context `{Common}.
Import Backend.

Lemma clear_index_loop (chat_ids : list Z) (s : Backend.t) :
  for_each chat_ids (λ chat_id,
    issue writer;;
    issue (writer_delete_by_term "chat_id" (pretty chat_id));;
    issue writer_commit) s
  = (Returned tt, set_indexer (_indexer s ++ flat_map clear_calls chat_ids) s).
Proof.
  revert s. induction chat_ids as [|c chat_ids IH]; intros s.
  { simpl. by rewrite set_indexer_app_nil. }
  rewrite (for_each_cons_returned _ _ _ _
             (set_indexer (_indexer s ++ clear_calls c) s)).
  - rewrite IH. unfold set_indexer. simpl. by rewrite <- !app_assoc.
  - unfold mbind, M_bind, bind, issue, modify, set_indexer. simpl.
    by rewrite <- !app_assoc.
Qed.

Lemma clear_remove_loop (chat_ids : list Z) (s : Backend.t) :
  NoDup chat_ids → (∀ c, c ∈ chat_ids → c ∈ monitored_chats s) →
  for_each chat_ids (λ chat_id,
    self ← gets id;
    s' ← lift (set_remove chat_id (monitored_chats self));
    modify (set_monitored_chats s')) s
  = (Returned tt, set_monitored_chats (monitored_chats s ∖ list_to_set chat_ids) s).
Proof.
  revert s. induction chat_ids as [|c chat_ids IH]; intros s Hnd Hin.
  { simpl. unfold ret. f_equal. destruct s. unfold set_monitored_chats. simpl.
    f_equal. by rewrite difference_empty_L. }
  apply NoDup_cons in Hnd as [Hc Hnd].
  rewrite (for_each_cons_returned _ _ _ _
             (set_monitored_chats (monitored_chats s ∖ {[c]}) s)).
  - rewrite IH; [|done|].
    + unfold set_monitored_chats. simpl. do 2 f_equal.
      by rewrite difference_difference_l_L.
    + intros c' Hc'. simpl. apply elem_of_difference. split.
      * apply Hin. by right.
      * intros ->%elem_of_singleton. done.
  - unfold mbind, M_bind, bind, gets, lift, set_remove, modify, id.
    rewrite bool_decide_eq_true_2; [done|]. apply Hin. by left.
Qed.

(** X13. [clear] of a list of distinct chat ids that are all monitored
    returns normally: it has issued, for each id in order, a term deletion for
    the text of that id inside its own writer, it has removed exactly the
    listed ids from the monitored set, and it has left the excluded set and
    [newest_msg] as they were. *)
Theorem clear_listed_chats (chat_ids : list Z) (self : Backend.t) :
  NoDup chat_ids → (∀ c, c ∈ chat_ids → c ∈ monitored_chats self) →
  let r := clear (Some chat_ids) self in
  r.1 = Returned tt
  ∧ monitored_chats r.2 = monitored_chats self ∖ list_to_set chat_ids
  ∧ _indexer r.2 = _indexer self ++ flat_map clear_calls chat_ids
  ∧ excluded_chats r.2 = excluded_chats self
  ∧ newest_msg r.2 = newest_msg self.
Proof.
  intros Hnd Hin r. subst r. unfold clear.
  rewrite (bind_returned _ _ _ _ _ (clear_index_loop chat_ids self)).
  rewrite clear_remove_loop by done. done.
Qed.

(** X14. Construction: for the bot built from the keyword configuration over an
    index that holds documents of the chats [indexed], a chat passes the
    monitoring gate exactly when, with [monitor_all], its canonical id is the
    canonical id of no configured [exclude_chats] entry (whatever raw form the
    entries are written in) and, without [monitor_all], its canonical id is
    among the indexed chats. *)
Theorem new_backend_gate (kw : BackendBotConfig_kw) (cloud_client : Aws.AWSClient)
    (indexed : gset Z) (chat_id : Z) :
  _should_monitor (new_backend kw cloud_client indexed) chat_id = true ↔
  if default false (kw_monitor_all kw)
  then ∀ excluded, excluded ∈ default [] (kw_exclude_chats kw) →
         get_share_id excluded ≠ get_share_id chat_id
  else get_share_id chat_id ∈ indexed.
Proof.
  unfold new_backend, BackendBotConfig__init__, __init__, _should_monitor. simpl.
  destruct (default false (kw_monitor_all kw)).
  - rewrite negb_true_iff, bool_decide_eq_false, elem_of_list_to_set, list_elem_of_fmap.
    split.
    + intros Hnot excluded Hin Heq. apply Hnot. by exists excluded.
    + intros Hall (excluded & Heq & Hin). by apply (Hall excluded).
  - apply bool_decide_eq_true.
Qed.

(** [_extract_text]: a missing or empty raw text gives the empty string, and
    every other raw text gives [escape_content] of its stripped form; the
    length test of the source never rejects anything. *)
Lemma extract_text_cases (raw_text : option string) :
  _extract_text raw_text =
    match raw_text with
    | None => ""
    | Some r => if bool_decide (r = "") then "" else escape_content (strip r)
    end.
Proof.
  destruct raw_text as [r|]; [|done]. unfold _extract_text, truthy.
  replace (0 <=? Z.of_nat (String.length (strip r))) with true
    by (symmetry; apply Z.leb_le; lia).
  rewrite andb_true_r. by case_bool_decide.
Qed.

End BackendFacts.

Section ClearExamples.
Import Backend Sample.

Lemma clear_listed_chats_witness :
  let self := backend false {[ 7; 8; 9 ]} ∅ in
  let r := clear (Some [9; 7]) self in
  (NoDup [9; 7] ∧ ∀ c, c ∈ [9; 7] → c ∈ monitored_chats self)
  ∧ r.1 = Returned tt
  ∧ monitored_chats r.2 = monitored_chats self ∖ list_to_set [9; 7]
  ∧ _indexer r.2 = _indexer self ++ flat_map clear_calls [9; 7]
  ∧ excluded_chats r.2 = excluded_chats self
  ∧ newest_msg r.2 = newest_msg self.
Proof.
  intros self.
  assert (Hnd : NoDup [9; 7]).
  { apply NoDup_cons_2; [|apply NoDup_singleton].
    by intros ?%list_elem_of_singleton. }
  assert (Hin : ∀ c, c ∈ [9; 7] → c ∈ monitored_chats self).
  { intros c Hc. subst self. simpl.
    apply elem_of_cons in Hc as [->|Hc]; [|apply list_elem_of_singleton in Hc as ->].
    - apply (bool_decide_unpack (9 ∈ ({[7; 8; 9]} : gset Z))). by vm_compute.
    - apply (bool_decide_unpack (7 ∈ ({[7; 8; 9]} : gset Z))). by vm_compute. }
  split; [done|]. exact (clear_listed_chats [9; 7] self Hnd Hin).
Defined.

(** A chat listed twice is removed once and then missed. *)
Example clear_repeated_chat :
  (clear (Some [7; 7]) (backend false {[ 7 ]} ∅)).1 = Raised (KeyError 7).
Proof. vm_compute. done. Qed.

End ClearExamples.

(** ** Text operations and decimal numerals *)

Section TextFacts.
Import Stdlib.Strings.Ascii.

Lemma string_app_assoc (s1 s2 s3 : string) : (s1 +:+ s2) +:+ s3 = s1 +:+ s2 +:+ s3.
Proof.
  induction s1 as [|a s1 IH]; [done|].
  change (String a ((s1 +:+ s2) +:+ s3) = String a (s1 +:+ s2 +:+ s3)). by f_equal.
Qed.

Lemma string_app_nil_r (s : string) : s +:+ "" = s.
Proof.
  induction s as [|a s IH]; [done|].
  change (String a (s +:+ "") = String a s). by f_equal.
Qed.

Lemma string_app_cons (a : ascii) (s1 s2 : string) :
  String a s1 +:+ s2 = String a (s1 +:+ s2).
Proof. reflexivity. Qed.

Lemma forallb_app (P : ascii → bool) (s1 s2 : string) :
  Text.forallb P (s1 +:+ s2) = Text.forallb P s1 && Text.forallb P s2.
Proof.
  induction s1 as [|a s1 IH]; [done|]. simpl. by rewrite IH, andb_assoc.
Qed.

Lemma forallb_impl (P Q : ascii → bool) (s : string) :
  (∀ a, P a = true → Q a = true) → Text.forallb P s = true → Text.forallb Q s = true.
Proof.
  intros HPQ. induction s as [|a s IH]; [done|]. simpl.
  intros [Ha Hs]%andb_true_iff. by rewrite (HPQ a Ha), IH.
Qed.

Lemma pretty_N_char_digit (x : N) : Text.is_digit (pretty_N_char x) = true.
Proof. unfold pretty_N_char. by repeat case_match. Qed.

(** The digits [pretty] puts in front of what it is given. *)
Lemma pretty_N_go_digits (x : N) (s : string) :
  ∃ d, pretty_N_go x s = d +:+ s ∧ Text.forallb Text.is_digit d = true
       ∧ ((0 < x)%N → d ≠ "").
Proof.
  revert s. induction (N.lt_wf_0 x) as [x _ IH]; intros s.
  assert (x = 0 ∨ 0 < x)%N as [->|Hx] by lia.
  - exists "". rewrite pretty_N_go_0. split_and!; [done|done|lia].
  - rewrite pretty_N_go_step by done.
    destruct (IH (x `div` 10)%N (N.div_lt x 10 Hx eq_refl)
                (String (pretty_N_char (x `mod` 10)) s)) as (d & Hd & Hdig & _).
    exists (d +:+ String (pretty_N_char (x `mod` 10)) ""). split_and!.
    + rewrite Hd. by rewrite string_app_assoc.
    + rewrite forallb_app, Hdig. simpl. by rewrite pretty_N_char_digit.
    + intros _. by destruct d.
Qed.

Lemma pretty_N_numeral (x : N) :
  Text.forallb Text.is_digit (pretty x) = true ∧ pretty x ≠ "".
Proof.
  unfold pretty, pretty_N. case_decide as Hx; [done|].
  destruct (pretty_N_go_digits x "") as (d & -> & Hd & Hne).
  rewrite string_app_nil_r. split; [done|]. apply Hne. lia.
Qed.

(** The decimal form of an integer is not empty and is made of digits and a
    minus sign. *)
Lemma pretty_Z_numeral (z : Z) :
  Text.forallb Text.is_numeral (pretty z) = true ∧ pretty z ≠ "".
Proof.
  assert (Hdig : ∀ a, Text.is_digit a = true → Text.is_numeral a = true).
  { intros a Ha. unfold Text.is_numeral. by rewrite Ha. }
  destruct z as [|p|p]; unfold pretty, pretty_Z; [done| |].
  - destruct (pretty_N_numeral (N.pos p)) as [Hd Hne]. split; [|done].
    by apply (forallb_impl _ _ _ Hdig).
  - destruct (pretty_N_numeral (N.pos p)) as [Hd Hne]. split; [|done].
    simpl. by apply (forallb_impl _ _ _ Hdig).
Qed.

Lemma split_without_separator (sep : ascii) (s : string) :
  Text.forallb (λ a, negb (Ascii.eqb a sep)) s = true → Text.split sep s = [s].
Proof.
  induction s as [|a s IH]; [done|]. simpl.
  intros [Ha Hs]%andb_true_iff. apply negb_true_iff in Ha. rewrite Ha.
  by rewrite IH.
Qed.

Lemma split_at_separator (sep : ascii) (s1 s2 : string) :
  Text.forallb (λ a, negb (Ascii.eqb a sep)) s1 = true →
  Text.split sep (s1 +:+ String sep s2) = s1 :: Text.split sep s2.
Proof.
  induction s1 as [|a s1 IH]; simpl.
  - intros _. by rewrite Ascii.eqb_refl.
  - intros [Ha Hs]%andb_true_iff. apply negb_true_iff in Ha. rewrite Ha.
    by rewrite IH.
Qed.

Lemma split_numeral (sep : ascii) (z : Z) :
  Text.is_numeral sep = false → Text.split sep (pretty z) = [pretty z].
Proof.
  intros Hsep. apply split_without_separator.
  destruct (pretty_Z_numeral z) as [Hnum _].
  apply (forallb_impl Text.is_numeral); [|done].
  intros a Ha. apply negb_true_iff. destruct (Ascii.eqb_spec a sep) as [->|]; congruence.
Qed.

Lemma numeral_is_ascii (z : Z) : Text.forallb Text.is_ascii (pretty z) = true.
Proof.
  destruct (pretty_Z_numeral z) as [Hnum _].
  apply (forallb_impl Text.is_numeral); [|done].
  intros a. unfold Text.is_numeral, Text.is_digit.
  destruct a as [[] [] [] [] [] [] [] []]; simpl; done.
Qed.

Lemma append_inv_head (s a b : string) : s +:+ a = s +:+ b → a = b.
Proof. induction s as [|c s IH]; [done|]. simpl. intros [= Heq]. by apply IH. Qed.

(** The sample [int] inverts [str]. *)
Lemma parse_digits_pretty_go (x : N) :
  ∃ k : N, ∀ acc s,
    SampleBuiltins.parse_digits acc (pretty_N_go x s)
    = SampleBuiltins.parse_digits (acc * 10 ^ k + x) s.
Proof.
  induction (N.lt_wf_0 x) as [x _ IH].
  assert (x = 0 ∨ 0 < x)%N as [->|Hx] by lia.
  - exists 0%N. intros acc s. rewrite pretty_N_go_0. f_equal.
    rewrite N.pow_0_r. lia.
  - destruct (IH (x `div` 10)%N (N.div_lt x 10 Hx eq_refl)) as [k Hk].
    exists (k + 1)%N. intros acc s. rewrite pretty_N_go_step by done.
    rewrite Hk. simpl.
    assert (Hdv : SampleBuiltins.digit_value (pretty_N_char (x `mod` 10))
                  = Some (x `mod` 10)%N).
    { pose proof (N.mod_lt x 10 ltac:(done)) as Hlt.
      generalize dependent (x `mod` 10)%N. intros r Hlt.
      assert (r = 0 ∨ r = 1 ∨ r = 2 ∨ r = 3 ∨ r = 4 ∨ r = 5 ∨ r = 6 ∨ r = 7
              ∨ r = 8 ∨ r = 9)%N as Hcases by lia.
      destruct Hcases as [->|[->|[->|[->|[->|[->|[->|[->|[->| ->]]]]]]]]]; done. }
    rewrite Hdv. f_equal.
    rewrite N.pow_add_r, N.pow_1_r.
    pose proof (N.div_mod x 10 ltac:(done)) as Hdm.
    set (q := (x `div` 10)%N) in *. set (r := (x `mod` 10)%N) in *.
    clearbody q r. rewrite Hdm. ring.
Qed.

Lemma parse_digits_pretty_N (x : N) :
  SampleBuiltins.parse_digits 0 (pretty x) = Some x.
Proof.
  unfold pretty, pretty_N. case_decide as Hx; [by subst|].
  destruct (parse_digits_pretty_go x) as [k Hk].
  rewrite (Hk 0%N ""). simpl. by rewrite N.mul_0_l, N.add_0_l.
Qed.

Lemma parse_int_digits (w : string) (n : N) :
  Text.forallb Text.is_digit w = true → w ≠ "" →
  SampleBuiltins.parse_digits 0 w = Some n →
  SampleBuiltins.parse_int w = Returned (Z.of_N n)
  ∧ SampleBuiltins.parse_int ("-" +:+ w) = Returned (- Z.of_N n).
Proof.
  intros Hdig Hne Hparse. destruct w as [|a s]; [done|]. split.
  - unfold SampleBuiltins.parse_int.
    assert (Hdigits : match String a s with String "-"%char s' => s' | _ => String a s end
                      = String a s).
    { apply andb_true_iff in Hdig as [Ha _].
      destruct a as [[] [] [] [] [] [] [] []]; done. }
    assert (Hsign : match String a s with String "-"%char _ => -1 | _ => 1 end = 1).
    { apply andb_true_iff in Hdig as [Ha _].
      destruct a as [[] [] [] [] [] [] [] []]; done. }
    rewrite Hdigits, Hsign, Hparse. f_equal; lia.
  - change ("-" +:+ String a s) with (String "-"%char (String a s)).
    unfold SampleBuiltins.parse_int. rewrite Hparse. f_equal; lia.
Qed.

Lemma sample_int_inverts_str : @int_inverts_str SampleBuiltins.builtins.
Proof.
  intros z. simpl.
  destruct z as [|p|p]; [done| |].
  - change (pretty (Z.pos p)) with (pretty (N.pos p)).
    destruct (pretty_N_numeral (N.pos p)) as [Hdig Hne].
    by destruct (parse_int_digits _ _ Hdig Hne (parse_digits_pretty_N (N.pos p))).
  - change (pretty (Z.neg p)) with ("-" +:+ pretty (N.pos p)).
    destruct (pretty_N_numeral (N.pos p)) as [Hdig Hne].
    by destruct (parse_int_digits _ _ Hdig Hne (parse_digits_pretty_N (N.pos p))).
Qed.

Lemma sample_decodes_ascii : @decodes_ascii SampleBuiltins.builtins.
Proof. intros s Hs. simpl. by rewrite Hs. Qed.

Lemma len_nonneg (s : string) : 0 ≤ Text.len s.
Proof. unfold Text.len. lia. Qed.

Lemma len_cons (a : ascii) (s : string) : Text.len (String a s) = Text.len s + 1.
Proof. unfold Text.len. simpl String.length. lia. Qed.

Lemma find_absent (c : ascii) (s : string) :
  Text.forallb (λ a, negb (Ascii.eqb a c)) s = true → Text.find c s = -1.
Proof.
  induction s as [|a s IH]; [done|]. simpl.
  intros [Ha Hs]%andb_true_iff. apply negb_true_iff in Ha. rewrite Ha, IH by done.
  done.
Qed.

Lemma find_at_separator (c : ascii) (s1 s2 : string) :
  Text.forallb (λ a, negb (Ascii.eqb a c)) s1 = true →
  Text.find c (s1 +:+ String c s2) = Text.len s1.
Proof.
  induction s1 as [|a s1 IH].
  - intros _. simpl. by rewrite Ascii.eqb_refl.
  - intros [Ha Hs]%andb_true_iff. apply negb_true_iff in Ha.
    rewrite string_app_cons. simpl Text.find. rewrite Ha, IH by done.
    pose proof (len_nonneg s1) as Hlen. rewrite len_cons.
    destruct (Z.ltb_spec (Text.len s1) 0); [lia|done].
Qed.

Lemma bound_nonneg (i : Z) (s : string) : 0 ≤ i → Text.bound i s = Z.to_nat i.
Proof.
  intros Hi. unfold Text.bound. by destruct (Z.ltb_spec i 0); [lia|].
Qed.

Lemma take_app_length (s1 s2 : string) : Text.take (String.length s1) (s1 +:+ s2) = s1.
Proof.
  induction s1 as [|a s1 IH]; [by destruct s2|].
  rewrite string_app_cons. simpl. by rewrite IH.
Qed.

Lemma drop_past_separator (c : ascii) (s1 s2 : string) :
  Text.drop (S (String.length s1)) (s1 +:+ String c s2) = s2.
Proof. induction s1 as [|a s1 IH]; [done|]. rewrite string_app_cons. exact IH. Qed.

Lemma drop_past_end (s : string) : Text.drop (S (String.length s)) s = "".
Proof. induction s as [|a s IH]; [done|]. exact IH. Qed.

Lemma slice_to_separator (c : ascii) (s1 s2 : string) :
  Text.slice_to (Text.len s1) (s1 +:+ String c s2) = s1.
Proof.
  unfold Text.slice_to. rewrite bound_nonneg by apply len_nonneg.
  unfold Text.len. rewrite Nat2Z.id. apply take_app_length.
Qed.

Lemma slice_from_separator (c : ascii) (s1 s2 : string) :
  Text.slice_from (Text.len s1 + 1) (s1 +:+ String c s2) = s2.
Proof.
  unfold Text.slice_from. pose proof (len_nonneg s1).
  rewrite bound_nonneg by lia. unfold Text.len.
  replace (Z.to_nat (Z.of_nat (String.length s1) + 1)) with (S (String.length s1)) by lia.
  apply drop_past_separator.
Qed.

Lemma slice_from_end (s : string) : Text.slice_from (Text.len s + 1) s = "".
Proof.
  unfold Text.slice_from. pose proof (len_nonneg s).
  rewrite bound_nonneg by lia. unfold Text.len.
  replace (Z.to_nat (Z.of_nat (String.length s) + 1)) with (S (String.length s)) by lia.
  apply drop_past_end.
Qed.

End TextFacts.

(** ** The search and pagination protocol *)

Section ProtocolExamples.
Import SampleBuiltins.

(** A search, then a press on the "next" button of its answer. *)
Example search_then_next_page :
  let event := NewMessage.mk (Sample.text_message 42 1 "/search hello world") in
  let searched := (Bot._search services event bot).2 in
  let pressed := Bot._callback_handler services
                   (CallbackQuery.mk 42 500 "search_page=2") searched in
  Bot.calls searched
  = [Bot.respond "results"
       [[Button.inline " " ""; Button.inline "1 / 3" "";
         Button.inline "➡️下一页" "search_page=2"]]]
  ∧ FakeRedis.get (Bot._redis searched) "fe:query_text:42:500" = PyStr "hello world"
  ∧ pressed.1 = Returned tt
  ∧ Bot.calls pressed.2
    = Bot.calls searched ++
      [Bot.edit "results"
         (Some [[Button.inline "上一页⬅️" "search_page=1"; Button.inline "2 / 3" "";
                 Button.inline "➡️下一页" "search_page=3"]]);
       Bot.answer].
Proof. vm_compute. done. Qed.

(** Choosing a chat, then searching in reply to the prompt. *)
Example select_then_search :
  let chosen := (Bot._callback_handler services
                   (CallbackQuery.mk 42 77 "select_chat=-1001234567890") bot).2 in
  let event := NewMessage.mk
    (TgMessage.mk 2 42 (Some "hello") (Some "hello") 0 None None (Some 77) None None None) in
  Bot.calls chosen
  = [Bot.edit "回复本条消息以对 chat (-1001234567890) 进行操作" None; Bot.answer]
  ∧ Bot._query_selected_chat chosen event = Returned (Some [-1001234567890])
  ∧ FakeRedis.get (Bot._redis (Bot._search services event chosen).2)
      "fe:query_chats:42:500" = PyStr "-1001234567890".
Proof. vm_compute. done. Qed.

Example callback_edge_cases :
  (Bot._callback_handler services (CallbackQuery.mk 42 500 "  ") bot).1 = Returned tt
  ∧ (Bot._callback_handler services (CallbackQuery.mk 42 500 "search_page") bot).1
    = Raised (builtin_error "IndexError")
  ∧ (Bot._callback_handler services (CallbackQuery.mk 42 500 "open=1") bot).1
    = Raised (Bot.unknown_callback_data "open=1")
  ∧ Bot._callback_handler services (CallbackQuery.mk 42 500 "search_page=2") bot
    = (Returned tt, Bot.mk "fe" {| Frontend.page_len := 10 |} FakeRedis.__init__
                      [Bot.answer]).
Proof. vm_compute. done. Qed.

End ProtocolExamples.

Section Protocol.
Context `{Builtins}.
Variable srv : Services.
Import Stdlib.Strings.Ascii.

Lemma key_kinds_differ (self : Bot.t) (c m c' m' : Z) :
  Bot.query_text_key self c m ≠ Bot.query_chats_key self c' m'.
Proof.
  unfold Bot.query_text_key, Bot.query_chats_key. intros Heq.
  apply String.app_inj in Heq. discriminate Heq.
Qed.

Lemma button_data_ascii (kind : string) (n : Z) :
  Text.forallb Text.is_ascii kind = true →
  Text.forallb Text.is_ascii (kind +:+ "=" +:+ pretty n) = true.
Proof.
  intros Hkind. rewrite forallb_app, Hkind. simpl. apply numeral_is_ascii.
Qed.

Lemma button_data_split (kind : string) (n : Z) :
  Text.forallb (λ a, negb (Ascii.eqb a "=")) kind = true →
  Text.split "=" (kind +:+ "=" +:+ pretty n) = [kind; pretty n].
Proof.
  intros Hkind. change (kind +:+ "=" +:+ pretty n) with (kind +:+ String "=" (pretty n)).
  rewrite split_at_separator by done. by rewrite split_numeral.
Qed.

(** What a page-turn button press decodes to. *)
Lemma callback_decodes_page (c m n : Z) (self : Bot.t) :
  int_inverts_str → decodes_ascii →
  Bot._callback_handler srv (CallbackQuery.mk c m ("search_page=" +:+ pretty n)) self
  = ((chats ← lift (Bot.chats_filter
                      (FakeRedis.get (Bot._redis self) (Bot.query_chats_key self c m)));
      if truthy (FakeRedis.get (Bot._redis self) (Bot.query_text_key self c m))
      then Bot.show_page srv
             (FakeRedis.get (Bot._redis self) (Bot.query_text_key self c m)) chats n
      else mret tt);;
     Bot.call Bot.answer) self.
Proof.
  intros Hint Hdec.
  assert (Hblank : Text.blank ("search_page=" +:+ pretty n) = false) by done.
  assert (Hdecode : decode_utf8 ("search_page=" +:+ pretty n)
                    = Returned ("search_page=" +:+ pretty n)).
  { apply Hdec. by apply (button_data_ascii "search_page"). }
  assert (Hsplit : Text.split "=" ("search_page=" +:+ pretty n)
                   = ["search_page"; pretty n]).
  { by apply (button_data_split "search_page"). }
  unfold Bot._callback_handler. cbn [CallbackQuery.data CallbackQuery.chat_id
    CallbackQuery.message_id].
  generalize dependent ("search_page=" +:+ pretty n). intros data Hblank Hdecode Hsplit.
  rewrite Hblank, Hdecode. cbn [negb].
  unfold mbind, M_bind, bind, lift, gets. rewrite Hsplit. cbn [hd].
  rewrite bool_decide_eq_true_2 by done.
  unfold Bot.second. cbn [lookup list_lookup]. rewrite Hint.
  destruct (Bot.chats_filter _) as [chats|e]; [|done].
  destruct (truthy _); [|done].
  unfold Bot.show_page, mbind, M_bind, bind, lift, gets. reflexivity.
Qed.

Lemma prefix_nil (s : string) : String.prefix "" s = true.
Proof. by destruct s. Qed.

Lemma prefix_char_app (c : ascii) (w x : string) :
  String.prefix (String c "") w = true → String.prefix (String c "") (w +:+ x) = true.
Proof.
  destruct w as [|a w]; [done|]. rewrite string_app_cons. simpl.
  destruct (ascii_dec c a); [|done]. intros _. apply prefix_nil.
Qed.

Lemma len_zero (s : string) : (Text.len s =? 0) = bool_decide (s = "").
Proof.
  destruct s; [done|]. rewrite bool_decide_eq_false_2 by done.
  unfold Text.len. apply Z.eqb_neq. simpl String.length. lia.
Qed.

Lemma query_selected_chat_cases (self : Bot.t) (event : NewMessage.Event)
    (chats : option (list Z)) :
  Bot._query_selected_chat self event = Returned chats →
  chats = None ∨ ∃ z, chats = Some [z].
Proof.
  unfold Bot._query_selected_chat.
  destruct (TgMessage.reply_to _); [|intros [= <-]; by left].
  destruct (truthy _); [|intros [= <-]; by left].
  destruct (Bot.int _); [|done]. intros [= <-]. right. by eexists.
Qed.

Lemma chats_filter_stored (z : Z) :
  int_inverts_str →
  Bot.chats_filter (PyStr (String.concat "," (pretty <$> [z]))) = Returned (inr [z]).
Proof.
  intros Hint. simpl. unfold Bot.chats_filter, truthy.
  destruct (pretty_Z_numeral z) as [_ Hne].
  rewrite bool_decide_eq_false_2 by done. cbn [negb].
  rewrite split_numeral by done. simpl. by rewrite Hint.
Qed.

(** X16. A search and a later page turn. When [_search] answers a message
    with a page of results (the index is not empty, the query left after the
    command word is not empty, and the backend and the platform answer), it
    sends that page and records the query, and the chat filter if there is one,
    under the identity of the answer. From then on a press on a button of that
    answer that carries [search_page=n] does exactly what showing page [n] of
    the same query with the same chat filter does, followed by the
    acknowledgement of the press. *)
Theorem search_then_page_turn (event : NewMessage.Event) (self : Bot.t) (raw : string)
    (chats : option (list Z)) (result : SearchResult.t) (text : string)
    (buttons : list (list Button.t)) (m : Z) :
  let c := NewMessage.chat_id event in
  let q := Bot.query_of raw in
  int_inverts_str → decodes_ascii →
  backend_is_empty srv = false →
  NewMessage.raw_text event = Some raw →
  q ≠ "" →
  Bot._query_selected_chat self event = Returned chats →
  backend_search srv (PyStr q) (Bot.scope_of chats)
    (Frontend.page_len (Bot._cfg self)) 1 = Returned result →
  _render_response_text srv result = Returned text →
  Frontend._render_respond_buttons (Bot._cfg self) result 1 = Returned buttons →
  respond_id srv c text = Returned m →
  (chats = None →
   FakeRedis.get (Bot._redis self) (Bot.query_chats_key self c m) = PyNone) →
  let searched := Bot._search srv event self in
  searched.1 = Returned tt
  ∧ Bot.calls searched.2 = Bot.calls self ++ [Bot.respond text buttons]
  ∧ ∀ n, Bot._callback_handler srv
           (CallbackQuery.mk c m ("search_page=" +:+ pretty n)) searched.2
         = (Bot.show_page srv (PyStr q) (Bot.scope_of chats) n;;
            Bot.call Bot.answer) searched.2.
Proof.
  intros c q Hint Hdec Hempty Hraw Hq Hchats Hsearch Htext Hbuttons Hm Hstale searched.
  assert (Hrun : ∃ st, Bot._search srv event self = (Returned tt, st)
            ∧ Bot.id st = Bot.id self ∧ Bot._cfg st = Bot._cfg self
            ∧ Bot.calls st = Bot.calls self ++ [Bot.respond text buttons]
            ∧ FakeRedis.get (Bot._redis st) (Bot.query_text_key self c m) = PyStr q
            ∧ Bot.chats_filter
                (FakeRedis.get (Bot._redis st) (Bot.query_chats_key self c m))
              = Returned (Bot.scope_of chats)).
  { unfold Bot._search. rewrite Hempty, Hraw. fold q.
    rewrite len_zero, bool_decide_eq_false_2 by done.
    unfold mbind, M_bind, bind, lift, gets.
    rewrite Hchats. unfold Bot.scope_of in Hsearch. rewrite Hsearch, Htext, Hbuttons.
    fold c. rewrite Hm. unfold Bot.call, Bot.redis_set, modify. cbn beta iota.
    destruct (query_selected_chat_cases _ _ _ Hchats) as [->|[z ->]].
    - eexists. split; [reflexivity|]. cbn [Bot.id Bot._cfg Bot.calls Bot._redis].
      split_and!; try done.
      + apply FakeRedis_get_set_eq.
      + rewrite FakeRedis_get_set_ne by apply key_kinds_differ.
        by rewrite Hstale.
    - eexists. split; [reflexivity|]. cbn [Bot.id Bot._cfg Bot.calls Bot._redis].
      split_and!; try done.
      + rewrite FakeRedis_get_set_ne by (apply not_eq_sym, key_kinds_differ).
        apply FakeRedis_get_set_eq.
      + rewrite FakeRedis_get_set_eq. by apply chats_filter_stored. }
  destruct Hrun as (st & Hrun & Hid & Hcfg & Hcalls & Hgetq & Hgetc).
  subst searched. rewrite Hrun. cbn [fst snd]. split; [done|]. split; [done|].
  intros n. rewrite callback_decodes_page by done.
  assert (Hkq : Bot.query_text_key st c m = Bot.query_text_key self c m)
    by (unfold Bot.query_text_key; by rewrite Hid).
  assert (Hkc : Bot.query_chats_key st c m = Bot.query_chats_key self c m)
    by (unfold Bot.query_chats_key; by rewrite Hid).
  rewrite Hkq, Hkc, Hgetq.
  unfold mbind at 2. unfold M_bind. unfold bind at 2. unfold lift. rewrite Hgetc.
  rewrite truthy_PyStr, bool_decide_eq_true_2 by done.
  reflexivity.
Qed.

(** X17. Choosing a chat and replying to the prompt. A press on a button
    that carries [select_chat=z], when the backend can name the chat, edits the
    prompt, acknowledges the press and records [z] under the identity of the
    prompt; a later message of the same chat that replies to the prompt is then
    scoped to [[z]], except for [z = 0], which is read back as no selection. *)
Theorem select_chat_then_reply (c m z : Z) (name : string) (self : Bot.t)
    (event : NewMessage.Event) :
  int_inverts_str → decodes_ascii →
  backend_translate_chat_id srv z = Returned name →
  NewMessage.chat_id event = c →
  TgMessage.reply_to (NewMessage.message event) = Some m →
  let chosen := Bot._callback_handler srv
                  (CallbackQuery.mk c m ("select_chat=" +:+ pretty z)) self in
  chosen.1 = Returned tt
  ∧ Bot.calls chosen.2 = Bot.calls self ++
      [Bot.edit ("回复本条消息以对 " +:+ name +:+ " (" +:+ pretty z +:+ ") 进行操作") None;
       Bot.answer]
  ∧ Bot._query_selected_chat chosen.2 event
    = Returned (if z =? 0 then None else Some [z]).
Proof.
  intros Hint Hdec Hname Hc Hreply chosen. subst chosen.
  assert (Hblank : Text.blank ("select_chat=" +:+ pretty z) = false) by done.
  assert (Hdecode : decode_utf8 ("select_chat=" +:+ pretty z)
                    = Returned ("select_chat=" +:+ pretty z)).
  { apply Hdec. by apply (button_data_ascii "select_chat"). }
  assert (Hsplit : Text.split "=" ("select_chat=" +:+ pretty z)
                   = ["select_chat"; pretty z]).
  { by apply (button_data_split "select_chat"). }
  unfold Bot._callback_handler. cbn [CallbackQuery.data CallbackQuery.chat_id
    CallbackQuery.message_id].
  generalize dependent ("select_chat=" +:+ pretty z). intros data Hblank Hdecode Hsplit.
  rewrite Hblank, Hdecode. cbn [negb].
  unfold mbind, M_bind, bind, lift, gets. rewrite Hsplit. cbn [hd].
  rewrite bool_decide_eq_false_2 by done. rewrite bool_decide_eq_true_2 by done.
  unfold Bot.second. cbn [lookup list_lookup]. rewrite Hint, Hname.
  unfold Bot.call, Bot.redis_set, modify. cbn [fst snd Bot.calls].
  split; [done|]. split; [by rewrite <- app_assoc|].
  unfold Bot._query_selected_chat. rewrite Hreply, Hc.
  cbn [Bot._redis Bot.id Bot.select_chat_key].
  unfold Bot.select_chat_key. cbn [Bot.id].
  rewrite FakeRedis_get_set_eq. simpl. by destruct (z =? 0).
Qed.

(** X18. A page turn whose answer is not in the correlation store: when
    neither a query nor a chat filter is recorded under the identity of the
    message the button is on, the press is only acknowledged; nothing is
    searched, nothing is edited, nothing is stored and nothing is raised. *)
Theorem page_turn_without_correlation (c m n : Z) (self : Bot.t) :
  int_inverts_str → decodes_ascii →
  truthy (FakeRedis.get (Bot._redis self) (Bot.query_text_key self c m)) = false →
  truthy (FakeRedis.get (Bot._redis self) (Bot.query_chats_key self c m)) = false →
  Bot._callback_handler srv (CallbackQuery.mk c m ("search_page=" +:+ pretty n)) self
  = (Returned tt,
     Bot.mk (Bot.id self) (Bot._cfg self) (Bot._redis self) (Bot.calls self ++ [Bot.answer])).
Proof.
  intros Hint Hdec Hq Hchats. rewrite callback_decodes_page by done.
  unfold Bot.chats_filter. rewrite Hq, Hchats. reflexivity.
Qed.

(** X19. The query [_search] makes of a message: when the text starts with
    [/] or [@], the first word is cut off together with the space after it, so
    a command followed by text searches for that text, and a bare command (no
    space) leaves an empty query, on which [_search] does nothing at all: no
    answer, no entry in the store, no error. *)
Theorem search_query_of_command (w rest : string) (event : NewMessage.Event)
    (self : Bot.t) :
  Text.forallb (λ a, negb (Ascii.eqb a " ")) w = true →
  String.prefix "/" w || String.prefix "@" w = true →
  Bot.query_of (w +:+ " " +:+ rest) = rest
  ∧ Bot.query_of w = ""
  ∧ (backend_is_empty srv = false → NewMessage.raw_text event = Some w →
     Bot._search srv event self = (Returned tt, self)).
Proof.
  intros Hw Hprefix.
  assert (Hprefix' : String.prefix "/" (w +:+ " " +:+ rest)
                     || String.prefix "@" (w +:+ " " +:+ rest) = true).
  { apply orb_true_iff in Hprefix. apply orb_true_iff.
    destruct Hprefix as [Hp|Hp]; [left|right]; by apply prefix_char_app. }
  assert (Hbare : Bot.query_of w = "").
  { unfold Bot.query_of. rewrite Hprefix, find_absent by done. cbn [Z.ltb Z.compare].
    apply slice_from_end. }
  split_and!.
  - unfold Bot.query_of. rewrite Hprefix'.
    change (w +:+ " " +:+ rest) with (w +:+ String " " rest).
    rewrite find_at_separator by done.
    pose proof (len_nonneg w) as Hlen.
    destruct (Z.ltb_spec (Text.len w) 0); [lia|]. apply slice_from_separator.
  - done.
  - intros Hempty Hraw. unfold Bot._search. by rewrite Hempty, Hraw, Hbare.
Qed.

(** X20. [_parse_redis_cfg] cuts at the first colon: a host without a colon
    followed by a colon and a port gives the host and [int] of the port (or
    the error of [int]); a configuration without a colon raises the
    [ValueError] of [str.index], not the one of the explicit check. *)
Theorem parse_redis_cfg_cases (host port : string) :
  Text.forallb (λ a, negb (Ascii.eqb a ":")) host = true →
  Bot._parse_redis_cfg (host +:+ ":" +:+ port) =
    match py_int port with
    | Returned p => Returned (host, p)
    | Raised e => Raised e
    end
  ∧ Bot._parse_redis_cfg host = Raised (ValueError "substring not found").
Proof.
  intros Hhost. split.
  - unfold Bot._parse_redis_cfg, Text.index.
    change (host +:+ ":" +:+ port) with (host +:+ String ":" port).
    rewrite find_at_separator by done.
    pose proof (len_nonneg host) as Hlen.
    assert (Hguard : (Text.len host <? 0) = false) by (apply Z.ltb_ge; lia).
    by rewrite !Hguard, slice_from_separator, slice_to_separator.
  - unfold Bot._parse_redis_cfg, Text.index. by rewrite find_absent.
Qed.


End Protocol.

Section ProtocolWitnesses.
Import SampleBuiltins.
Import Stdlib.Strings.Ascii.

(** The search of the example above, and every later page turn. *)
Lemma search_then_page_turn_witness :
  let event := NewMessage.mk (Sample.text_message 42 1 "/search hello world") in
  let raw := "/search hello world" in
  let result := SearchResult.mk [] false 25 in
  let buttons := [[Button.inline " " ""; Button.inline "1 / 3" "";
                   Button.inline "➡️下一页" "search_page=2"]] in
  let c := NewMessage.chat_id event in
  let q := Bot.query_of raw in
  let searched := Bot._search services event bot in
  (int_inverts_str ∧ decodes_ascii
   ∧ backend_is_empty services = false
   ∧ NewMessage.raw_text event = Some raw
   ∧ q ≠ ""
   ∧ Bot._query_selected_chat bot event = Returned None
   ∧ backend_search services (PyStr q) (Bot.scope_of None)
       (Frontend.page_len (Bot._cfg bot)) 1 = Returned result
   ∧ _render_response_text services result = Returned "results"
   ∧ Frontend._render_respond_buttons (Bot._cfg bot) result 1 = Returned buttons
   ∧ respond_id services c "results" = Returned 500
   ∧ ((None : option (list Z)) = None →
      FakeRedis.get (Bot._redis bot) (Bot.query_chats_key bot c 500) = PyNone))
  ∧ searched.1 = Returned tt
  ∧ Bot.calls searched.2 = Bot.calls bot ++ [Bot.respond "results" buttons]
  ∧ ∀ n, Bot._callback_handler services
           (CallbackQuery.mk c 500 ("search_page=" +:+ pretty n)) searched.2
         = (Bot.show_page services (PyStr q) (Bot.scope_of None) n;;
            Bot.call Bot.answer) searched.2.
Proof.
  intros event raw result buttons c q searched.
  assert (H1 : int_inverts_str) by apply sample_int_inverts_str.
  assert (H2 : decodes_ascii) by apply sample_decodes_ascii.
  assert (H3 : backend_is_empty services = false) by reflexivity.
  assert (H4 : NewMessage.raw_text event = Some raw) by reflexivity.
  assert (H5 : q ≠ "") by (vm_compute; discriminate).
  assert (H6 : Bot._query_selected_chat bot event = Returned None) by reflexivity.
  assert (H7 : backend_search services (PyStr q) (Bot.scope_of None)
                 (Frontend.page_len (Bot._cfg bot)) 1 = Returned result)
    by reflexivity.
  assert (H8 : _render_response_text services result = Returned "results") by reflexivity.
  assert (H9 : Frontend._render_respond_buttons (Bot._cfg bot) result 1
               = Returned buttons) by (vm_compute; reflexivity).
  assert (H10 : respond_id services c "results" = Returned 500) by reflexivity.
  assert (H11 : (None : option (list Z)) = None →
                FakeRedis.get (Bot._redis bot) (Bot.query_chats_key bot c 500) = PyNone).
  { intros _. vm_compute. reflexivity. }
  split; [by repeat split|].
  exact (search_then_page_turn services event bot raw None result "results" buttons 500
           H1 H2 H3 H4 H5 H6 H7 H8 H9 H10 H11).
Defined.

Lemma select_chat_then_reply_witness :
  let event := NewMessage.mk
    (TgMessage.mk 2 42 (Some "hello") (Some "hello") 0 None None (Some 77) None None None) in
  let chosen := Bot._callback_handler services
                  (CallbackQuery.mk 42 77 ("select_chat=" +:+ pretty 9)) bot in
  (int_inverts_str ∧ decodes_ascii
   ∧ backend_translate_chat_id services 9 = Returned "chat"
   ∧ NewMessage.chat_id event = 42
   ∧ TgMessage.reply_to (NewMessage.message event) = Some 77)
  ∧ chosen.1 = Returned tt
  ∧ Bot.calls chosen.2 = Bot.calls bot ++
      [Bot.edit ("回复本条消息以对 " +:+ "chat" +:+ " (" +:+ pretty 9 +:+ ") 进行操作") None;
       Bot.answer]
  ∧ Bot._query_selected_chat chosen.2 event
    = Returned (if 9 =? 0 then None else Some [9]).
Proof.
  intros event chosen.
  assert (H1 : int_inverts_str) by apply sample_int_inverts_str.
  assert (H2 : decodes_ascii) by apply sample_decodes_ascii.
  split; [by repeat split|].
  exact (select_chat_then_reply services 42 77 9 "chat" bot event H1 H2
           eq_refl eq_refl eq_refl).
Defined.

Lemma page_turn_without_correlation_witness :
  (int_inverts_str ∧ decodes_ascii
   ∧ truthy (FakeRedis.get (Bot._redis bot) (Bot.query_text_key bot 42 500)) = false
   ∧ truthy (FakeRedis.get (Bot._redis bot) (Bot.query_chats_key bot 42 500)) = false)
  ∧ Bot._callback_handler services
      (CallbackQuery.mk 42 500 ("search_page=" +:+ pretty 2)) bot
    = (Returned tt,
       Bot.mk (Bot.id bot) (Bot._cfg bot) (Bot._redis bot) (Bot.calls bot ++ [Bot.answer])).
Proof.
  assert (H1 : int_inverts_str) by apply sample_int_inverts_str.
  assert (H2 : decodes_ascii) by apply sample_decodes_ascii.
  assert (H3 : truthy (FakeRedis.get (Bot._redis bot) (Bot.query_text_key bot 42 500))
               = false) by (vm_compute; reflexivity).
  assert (H4 : truthy (FakeRedis.get (Bot._redis bot) (Bot.query_chats_key bot 42 500))
               = false) by (vm_compute; reflexivity).
  split; [done|].
  exact (page_turn_without_correlation services 42 500 2 bot H1 H2 H3 H4).
Defined.

Lemma search_query_of_command_witness :
  let event := NewMessage.mk (Sample.text_message 42 1 "/search") in
  (Text.forallb (λ a, negb (Ascii.eqb a " ")) "/search" = true
   ∧ String.prefix "/" "/search" || String.prefix "@" "/search" = true)
  ∧ Bot.query_of ("/search" +:+ " " +:+ "hello world") = "hello world"
  ∧ Bot.query_of "/search" = ""
  ∧ (backend_is_empty services = false → NewMessage.raw_text event = Some "/search" →
     Bot._search services event bot = (Returned tt, bot)).
Proof.
  intros event. split; [by split|].
  exact (search_query_of_command services "/search" "hello world" event bot
           eq_refl eq_refl).
Defined.

Lemma parse_redis_cfg_cases_witness :
  Text.forallb (λ a, negb (Ascii.eqb a ":")) "localhost" = true
  ∧ Bot._parse_redis_cfg ("localhost" +:+ ":" +:+ "6379") =
      match py_int "6379" with
      | Returned p => Returned ("localhost", p)
      | Raised e => Raised e
      end
  ∧ Bot._parse_redis_cfg "localhost" = Raised (ValueError "substring not found").
Proof.
  split; [reflexivity|]. exact (parse_redis_cfg_cases "localhost" "6379" eq_refl).
Defined.

Example parse_redis_cfg_default :
  Bot._parse_redis_cfg "localhost:6379" = Returned ("localhost", 6379)
  ∧ Bot._parse_redis_cfg "[::1]:6379" = Raised (ValueError "invalid literal for int()").
Proof. vm_compute. done. Qed.


End ProtocolWitnesses.
